(** * py3status [clock] module: a shallow embedding and its properties

    The development follows [py3status/modules/clock.py]:
    - the scanning of format strings ([re.sub], [re.findall], [str.replace],
      the [in] test) on [string];
    - [post_config_hook], [_get_timezone], [_change_active], [on_click] and
      [clock] as functions on a record that mirrors the attributes of [self];
    - the system clock as explicit readings handed to each call;
    - raised exceptions as a result type.

    The readings of [time()] are idealised as exact rationals [Q].  The
    decimal hour from which the icon is chosen is computed as the source
    computes it, in binary64 floats. *)

From Stdlib Require Import ZArith QArith Qround Qminmax Lia Lqa String Ascii List.
From Stdlib Require SpecFloat.
From stdpp Require Import base option list gmap strings fin_maps.

Local Open Scope string_scope.
Local Open Scope Z_scope.

(** ** Exceptions *)

Inductive exn : Set :=
| IndexError
| ZeroDivisionError
| OverflowError
| ValueError.

Inductive result (A : Type) : Type :=
| Ok (a : A)
| Raise (e : exn).
Arguments Ok {A} a.
Arguments Raise {A} e.

Definition rbind {A B} (m : result A) (k : A -> result B) : result B :=
  match m with
  | Ok a => k a
  | Raise e => Raise e
  end.

Definition is_ok {A} (m : result A) : bool :=
  match m with Ok _ => true | Raise _ => false end.

(** Whether a call returned the integer [z]. *)
Definition returns_int (m : result Z) (z : Z) : bool :=
  match m with Ok i => i =? z | Raise _ => false end.

Notation "'do' x <- m ; k" := (rbind m (fun x => k))
  (at level 10, x name, m at level 100, k at level 200).

(** [for x in l: ...] with a body that may raise. *)
Fixpoint rmapM {A B} (f : A -> result B) (l : list A) : result (list B) :=
  match l with
  | [] => Ok []
  | x :: l' => do y <- f x; do ys <- rmapM f l'; Ok (y :: ys)
  end.

(** [l[i]]: a negative index counts from the end, an index outside
    [-len(l) .. len(l) - 1] raises. *)
Definition getitem {A} (l : list A) (i : Z) : result A :=
  let n := Z.of_nat (length l) in
  let j := if i <? 0 then i + n else i in
  if (0 <=? j) && (j <? n) then
    match l !! Z.to_nat j with
    | Some x => Ok x
    | None => Raise IndexError
    end
  else Raise IndexError.

(** ** Numbers *)

(** [x % y] on the readings of the clock, the divisor not zero: the result
    has the sign of [y]. *)
Definition qmod (x y : Q) : Q := (x - y * inject_Z (Qfloor (x / y)))%Q.

(** Truth value of a number. *)
Definition truthy (q : Q) : bool := negb (Qeq_bool q 0).

(** [min(a, b)]: the first argument unless the second is smaller. *)
Definition pymin (a b : Q) : Q := if Qle_bool a b then a else b.

(** ** String scanning *)

Module Scan.

(** [needle in hay] *)
Fixpoint contains (needle hay : string) : bool :=
  String.prefix needle hay ||
  match hay with
  | EmptyString => false
  | String _ hay' => contains needle hay'
  end.

(** [hay.replace('%%', '')]: occurrences are removed left to right and do
    not overlap. *)
Fixpoint remove_percent_percent (s : string) : string :=
  match s with
  | String "%" (String "%" rest) => remove_percent_percent rest
  | String c rest => String c (remove_percent_percent rest)
  | EmptyString => EmptyString
  end.

(** One pass of the pattern used by [post_config_hook] (an opening brace,
    any run of characters other than a closing brace, captured as group 1,
    and a closing brace) over a string. [pending] is [None]
    outside a candidate match and [Some buf] once an opening brace has been
    read, [buf] holding the characters read since.  The pass
    returns the text left once every match is removed (what [re.sub] with an
    empty replacement yields) and the captured groups in order (what
    [re.findall] yields).  An opening brace with no closing brace after it
    matches nothing, and the text from it on is kept. *)
Fixpoint scan (pending : option string) (s : string) : string * list string :=
  match s with
  | EmptyString =>
      match pending with
      | None => (EmptyString, [])
      | Some buf => (String "{" buf, [])
      end
  | String c rest =>
      match pending with
      | None =>
          if Ascii.eqb c "{" then scan (Some EmptyString) rest
          else let '(out, toks) := scan None rest in (String c out, toks)
      | Some buf =>
          if Ascii.eqb c "}" then
            let '(out, toks) := scan None rest in (out, buf :: toks)
          else scan (Some (buf ++ String c EmptyString)) rest
      end
  end.

Definition sub_placeholders (s : string) : string := fst (scan None s).
Definition findall_placeholders (s : string) : list string := snd (scan None s).

End Scan.

(** ** Refresh interval of a time format ([post_config_hook], the loop over
    [format_time]) *)

Definition time_delta (format : string) : Z :=
  let format_time := Scan.sub_placeholders format in
  let format_time := Scan.remove_percent_percent format_time in
  if Scan.contains "%f" format_time then 0
  else if Scan.contains "%S" format_time then 1
  else if Scan.contains "%c" format_time then 1
  else if Scan.contains "%X" format_time then 1
  else 60.


(** ** Configuration and instance *)

Inductive str_or_list : Type :=
| PyStr (s : string)
| PyList (l : list string).

(** The configuration parameters as the user (or the class defaults) gives
    them, before [post_config_hook]. *)
Module Config.
Record t : Type := mk {
  blocks : list string;
  block_hours : Z;
  button_change_format : Z;
  button_change_time_format : Z;
  button_reset : Z;
  cycle : Q;
  format : str_or_list;
  format_time : str_or_list;
}.
End Config.

(** The 24 clock faces, one string per code point. *)
Definition CLOCK_BLOCKS : list string :=
  ["🕛"; "🕧"; "🕐"; "🕜"; "🕑"; "🕝"; "🕒"; "🕞"; "🕓"; "🕟"; "🕔"; "🕠";
   "🕕"; "🕡"; "🕖"; "🕢"; "🕗"; "🕣"; "🕘"; "🕤"; "🕙"; "🕥"; "🕚"; "🕦"].

Definition default_config : Config.t :=
  {| Config.blocks := CLOCK_BLOCKS;
     Config.block_hours := 12;
     Config.button_change_format := 1;
     Config.button_change_time_format := 2;
     Config.button_reset := 3;
     Config.cycle := 0%Q;
     Config.format := PyStr "{Local}";
     Config.format_time :=
       PyList ["[{name_} ]%c"; "[{name_} ]%x %X"; "[{name_} ]%a %H:%M";
               "[{name_} ]{icon}"] |}.

(** [isinstance(x, list)] and the wrapping of a plain string. *)
Definition as_list (x : str_or_list) : list string :=
  match x with
  | PyStr s => [s]
  | PyList l => l
  end.

(** A click event; only [event['button']] is read. *)
Record Event : Type := { button : Z }.

(** The events the host delivers: i3bar reports the X11 number of the button
    that was pressed, and X11 numbers the buttons from 1. *)
Definition x11_button (event : Event) : Prop := 1 <= button event.

(** What [clock] returns. *)
Record Output : Type := { full_text : string; cached_until : Q }.

(** The four places where [clock] reads the system clock. *)
Record Readings : Type := {
  at_cycle_test : Q;       (* [time() >= self._cycle_time] *)
  at_cycle_rearm : Q;      (* [self._cycle_time = time() + self.cycle] *)
  at_item : string -> Q;   (* [datetime.now(zone)], per entry of [_items] *)
  at_timeout : Q;          (* [now = time()] *)
}.

(** All readings of one call taken at the same instant. *)
Definition instant (now : Q) : Readings :=
  {| at_cycle_test := now; at_cycle_rearm := now;
     at_item := fun _ => now; at_timeout := now |}.

(** ** Timezone names *)

(** [timezone.split('/')[-1]] *)
Fixpoint after_last_slash (s : string) : string :=
  match s with
  | EmptyString => EmptyString
  | String _ rest => if Scan.contains "/" s then after_last_slash rest else s
  end.

(** [.replace('_', ' ')] *)
Fixpoint underscores_to_spaces (s : string) : string :=
  match s with
  | EmptyString => EmptyString
  | String c rest =>
      String (if Ascii.eqb c "_" then " "%char else c) (underscores_to_spaces rest)
  end.

(** ** Binary64 floats

    The icon is chosen with Python floats.  These are the IEEE 754 binary64
    numbers of the Standard Library's [SpecFloat] (53 bits of precision,
    every operation rounded to nearest, ties to even); what CPython adds to
    the arithmetic (the conversion of an [int], the test for a zero divisor,
    the sign of [%], the exceptions of [math.floor]) is written out. *)

Module Float.
Import SpecFloat.

Definition prec : Z := 53.
Definition emax : Z := 1024.

Definition float : Set := spec_float.

Definition is_zero (x : float) : bool :=
  match x with
  | S754_zero _ => true
  | _ => false
  end.

(** [x < 0.0] *)
Definition is_negative (x : float) : bool := SFltb x (S754_zero false).

Definition sign_bit (x : float) : bool :=
  match x with
  | S754_zero s | S754_infinity s | S754_finite s _ _ => s
  | S754_nan => false
  end.

(** The float of an [int]: the nearest one, and [OverflowError] when the
    [int] is too large to have one. *)
Definition of_int (z : Z) : result float :=
  match binary_normalize prec emax z 0 false with
  | S754_infinity _ => Raise OverflowError
  | x => Ok x
  end.

(** The literal [60.], which is 8444249301319680 * 2^-47. *)
Definition sixty : float := S754_finite false 8444249301319680 (-47).

(** [x + y] and [x * y] *)
Definition add (x y : float) : float := SFadd prec emax x y.
Definition mul (x y : float) : float := SFmul prec emax x y.

(** [x / y] *)
Definition div (x y : float) : result float :=
  if is_zero y then Raise ZeroDivisionError else Ok (SFdiv prec emax x y).

(** C's [fmod]: [x - k * y] for the integer [k] that is [x / y] rounded
    towards zero.  The result is exact and has the sign of [x]. *)
Definition fmod (x y : float) : float :=
  match x, y with
  | S754_nan, _ | _, S754_nan => S754_nan
  | S754_infinity _, _ => S754_nan
  | _, S754_zero _ => S754_nan
  | S754_zero _, _ => x
  | S754_finite _ _ _, S754_infinity _ => x
  | S754_finite sx mx ex, S754_finite _ my ey =>
      let e := Z.min ex ey in
      let X := Zpos mx * 2 ^ (ex - e) in
      let Y := Zpos my * 2 ^ (ey - e) in
      binary_normalize prec emax (cond_Zopp sx (X mod Y)) e sx
  end.

(** [x % y]: [fmod], moved by [y] when its sign is not that of [y]; a zero
    result takes the sign of [y]. *)
Definition rem (x y : float) : result float :=
  if is_zero y then Raise ZeroDivisionError
  else
    let m := fmod x y in
    if is_zero m then Ok (S754_zero (sign_bit y))
    else if xorb (is_negative y) (is_negative m) then Ok (add m y)
    else Ok m.

(** [int(math.floor(x))] *)
Definition floor (x : float) : result Z :=
  match x with
  | S754_zero _ => Ok 0
  | S754_finite s m e =>
      let z := cond_Zopp s (Zpos m) in
      Ok (if 0 <=? e then z * 2 ^ e else z / 2 ^ (- e))
  | S754_infinity _ => Raise OverflowError
  | S754_nan => Raise ValueError
  end.

End Float.

(** ** Icon selection *)

(** Line 217 of [clock]: [h = t.hour + t.minute / 60.] *)
Definition decimal_hour (hour minute : Z) : result Float.float :=
  do m <- Float.of_int minute;
  do x <- Float.div m Float.sixty;
  do h <- Float.of_int hour;
  Ok (Float.add h x).

(** Lines 219-221 of [clock]: the index into [blocks].  [block_hours] has
    the same float at its two uses and is converted once. *)
Definition icon_index (hour minute block_hours : Z) (nblocks : nat) : result Z :=
  do h <- decimal_hour hour minute;
  do b <- Float.of_int block_hours;
  do h <- Float.rem h b;
  do q <- Float.div h b;
  do n <- Float.of_int (Z.of_nat nblocks);
  Float.floor (Float.mul q n).

(** The times of day: [hour] in [range(24)] and [minute] in [range(60)]. *)
Definition day_times : list (Z * Z) :=
  flat_map (fun hour => map (fun minute => (hour, minute)) (seqZ 0 60)) (seqZ 0 24).

(** Lines 219-222 at one time of day: [blocks[idx]] for the index computed. *)
Definition icon_at (hour minute block_hours : Z) (blocks : list string)
  : result string :=
  do idx <- icon_index hour minute block_hours (length blocks);
  getitem blocks idx.

(** Whether the icon can be computed at every time of day. *)
Definition icons_okb (block_hours : Z) (blocks : list string) : bool :=
  forallb (fun '(hour, minute) => is_ok (icon_at hour minute block_hours blocks))
          day_times.

(** ** The module *)

Section Clock.

(** The collaborators: the timezone database ([pytz], [tzlocal]), the
    formatter of the host ([py3.safe_format]) and [strftime]. A lookup that
    raises the exception the source catches is [None]. *)
Variable Zone : Type.
Variable get_localzone : option Zone.
Variable country_timezones : string -> option (list string).
Variable timezone : string -> option Zone.
Variable zone_name : Zone -> string.

Variable DateTime : Type.
Variable datetime_now : Zone -> Q -> DateTime.
Variable dt_hour dt_minute : DateTime -> Z.
Variable strftime : DateTime -> string -> string.

Variable safe_format : string -> gmap string (option string) -> string.

(** An entry of [self._items]: a zone, or the string ['?']. *)
Inductive tzitem : Type :=
| TzZone (z : Zone)
| TzUnknown.

(** The attributes of [self] once [post_config_hook] has run. *)
Record Py3status : Type := {
  blocks : list string;
  block_hours : Z;
  button_change_format : Z;
  button_change_time_format : Z;
  button_reset : Z;
  cycle : Q;
  format : list string;
  format_time : list string;
  _items : gmap string tzitem;
  multiple_tz : bool;
  time_deltas : list Z;
  active_time_format : Z;
  _cycle_time : Q;
  active : Z;
}.

Definition set_active (self : Py3status) (a : Z) : Py3status :=
  {| blocks := blocks self; block_hours := block_hours self;
     button_change_format := button_change_format self;
     button_change_time_format := button_change_time_format self;
     button_reset := button_reset self; cycle := cycle self;
     format := format self; format_time := format_time self;
     _items := _items self; multiple_tz := multiple_tz self;
     time_deltas := time_deltas self;
     active_time_format := active_time_format self;
     _cycle_time := _cycle_time self; active := a |}.

Definition set_cycle_time (self : Py3status) (t : Q) : Py3status :=
  {| blocks := blocks self; block_hours := block_hours self;
     button_change_format := button_change_format self;
     button_change_time_format := button_change_time_format self;
     button_reset := button_reset self; cycle := cycle self;
     format := format self; format_time := format_time self;
     _items := _items self; multiple_tz := multiple_tz self;
     time_deltas := time_deltas self;
     active_time_format := active_time_format self;
     _cycle_time := t; active := active self |}.

Definition set_active_time_format (self : Py3status) (i : Z) : Py3status :=
  {| blocks := blocks self; block_hours := block_hours self;
     button_change_format := button_change_format self;
     button_change_time_format := button_change_time_format self;
     button_reset := button_reset self; cycle := cycle self;
     format := format self; format_time := format_time self;
     _items := _items self; multiple_tz := multiple_tz self;
     time_deltas := time_deltas self;
     active_time_format := i;
     _cycle_time := _cycle_time self; active := active self |}.

(** [_get_timezone]. [zones[0]] on an empty list is the one exception the
    source does not catch. *)
Definition _get_timezone (tz : string) : result tzitem :=
  if String.eqb tz "Local" then
    match get_localzone with
    | Some z => Ok (TzZone z)
    | None => Ok TzUnknown
    end
  else
    let lookup (tz : string) : result tzitem :=
      match timezone tz with
      | Some zone => Ok (TzZone zone)
      | None => Ok TzUnknown
      end in
    if (String.length tz =? 2)%nat then
      match country_timezones tz with
      | None => Ok TzUnknown
      | Some zones => do tz <- getitem zones 0; lookup tz
      end
    else lookup tz.

(** [for match in matches: self._items[match] = self._get_timezone(match)] *)
Fixpoint collect_items (matches : list string) (items : gmap string tzitem)
  : result (gmap string tzitem) :=
  match matches with
  | [] => Ok items
  | m :: ms => do z <- _get_timezone m; collect_items ms (<[m := z]> items)
  end.

(** [post_config_hook]; [now] is the reading of [time()] on line 149. *)
Definition post_config_hook (c : Config.t) (now : Q) : result Py3status :=
  let format := as_list (Config.format c) in
  let cycle := if (length format =? 1)%nat then 0%Q else Config.cycle c in
  let matches := Scan.findall_placeholders (String.concat "" format) in
  do items <- collect_items matches ∅;
  let format_time := as_list (Config.format_time c) in
  Ok {| blocks := Config.blocks c;
        block_hours := Config.block_hours c;
        button_change_format := Config.button_change_format c;
        button_change_time_format := Config.button_change_time_format c;
        button_reset := Config.button_reset c;
        cycle := cycle;
        format := format;
        format_time := format_time;
        _items := items;
        multiple_tz := (1 <? size items)%nat;
        time_deltas := map time_delta format_time;
        active_time_format := 0;
        _cycle_time := (now + cycle)%Q;
        active := 0 |}.

(** [_change_active] *)
Definition _change_active (self : Py3status) (diff : Z) : result Py3status :=
  let n := Z.of_nat (length (format self)) in
  if n =? 0 then Raise ZeroDivisionError
  else Ok (set_active self ((active self + diff) mod n)).

(** [on_click]; [now] is the reading of [time()] on line 191. *)
Definition on_click (self : Py3status) (now : Q) (event : Event) : result Py3status :=
  if button event =? button_reset self then
    Ok (set_cycle_time (set_active self 0) (now + cycle self)%Q)
  else if button event =? button_change_time_format self then
    let i := active_time_format self + 1 in
    Ok (set_active_time_format self
          (if Z.of_nat (length (format_time self)) <=? i then 0 else i))
  else if button event =? button_change_format self then
    _change_active self 1
  else Ok self.

(** The body of the loop over [self._items] in [clock]. *)
Definition render_item (self : Py3status) (now : Q) (zone : tzitem) : result string :=
  match zone with
  | TzUnknown => Ok "?"
  | TzZone zone =>
      let t := datetime_now zone now in
      do format_time <- getitem (format_time self) (active_time_format self);
      do icon <-
        (if Scan.contains "{icon}" format_time then
           do idx <- icon_index (dt_hour t) (dt_minute t) (block_hours self)
                       (length (blocks self));
           do g <- getitem (blocks self) idx; Ok (Some g)
         else Ok None);
      let timezone := zone_name zone in
      let tzname := underscores_to_spaces (after_last_slash timezone) in
      let name_ := if multiple_tz self then Some tzname else None in
      let format_time :=
        safe_format format_time
          (<["icon" := icon]> (<["name" := Some tzname]>
             (<["name_" := name_]> (<["timezone" := Some timezone]> ∅)))) in
      Ok (strftime t format_time)
  end.

(** The loop itself: the entries are visited in the order of the dict, and
    the first body that raises ends the call. *)
Definition render_items (self : Py3status) (r : Readings)
  : result (gmap string string) :=
  do l <- rmapM (fun '(name, zone) =>
                   do s <- render_item self (at_item r name) zone; Ok (name, s))
                (map_to_list (_items self));
  Ok (list_to_map l).

(** Lines 242-247: the deadline the time format asks for. *)
Definition granularity_timeout (self : Py3status) (now : Q) : result Q :=
  do d <- getitem (time_deltas self) (active_time_format self);
  if negb (d =? 0) then Ok (now + inject_Z d - qmod now (inject_Z d))%Q
  else Ok 0%Q.

(** Lines 201-204: the timer-driven change of display. *)
Definition auto_cycle (self : Py3status) (r : Readings) : result Py3status :=
  if truthy (cycle self) && Qle_bool (_cycle_time self) (at_cycle_test r) then
    do self <- _change_active self 1;
    Ok (set_cycle_time self (at_cycle_rearm r + cycle self)%Q)
  else Ok self.

(** [clock] *)
Definition clock (self : Py3status) (r : Readings) : result (Py3status * Output) :=
  do self <- auto_cycle self r;
  do times <- render_items self r;
  let now := at_timeout r in
  do timeout <- granularity_timeout self now;
  let timeout :=
    if truthy (cycle self) then pymin timeout (_cycle_time self) else timeout in
  do fmt <- getitem (format self) (active self);
  Ok (self, {| full_text := safe_format fmt (Some <$> times);
               cached_until := timeout |}).

(** *** Runs *)

(** A run of polls, one per element of [rs], with no click in between. *)
Fixpoint poll_run (self : Py3status) (rs : list Readings) : result Py3status :=
  match rs with
  | [] => Ok self
  | r :: rs' => do p <- clock self r; poll_run (fst p) rs'
  end.

(** What the host may do with an instance: deliver a click or poll. *)
Inductive step : Py3status -> Py3status -> Prop :=
| step_click self now event self' :
    on_click self now event = Ok self' -> step self self'
| step_poll self r self' out :
    clock self r = Ok (self', out) -> step self self'.

(** *** Which action a click triggers *)

Inductive action : Set :=
| Reset
| ChangeTimeFormat
| ChangeFormat.

(** The branch of [on_click] an event takes. *)
Definition dispatch (self : Py3status) (event : Event) : option action :=
  if button event =? button_reset self then Some Reset
  else if button event =? button_change_time_format self then Some ChangeTimeFormat
  else if button event =? button_change_format self then Some ChangeFormat
  else None.

(** What each action does to the instance. *)
Definition perform (self : Py3status) (now : Q) (a : option action)
  : result Py3status :=
  match a with
  | Some Reset => Ok (set_cycle_time (set_active self 0) (now + cycle self)%Q)
  | Some ChangeTimeFormat =>
      let i := active_time_format self + 1 in
      Ok (set_active_time_format self
            (if Z.of_nat (length (format_time self)) <=? i then 0 else i))
  | Some ChangeFormat => _change_active self 1
  | None => Ok self
  end.

(** *** Invariants *)

(** The active indices lie within their lists, and [time_deltas] is the list
    computed from [format_time]. *)
Definition indices_ok (self : Py3status) : Prop :=
  0 <= active self < Z.of_nat (length (format self))
  /\ 0 <= active_time_format self < Z.of_nat (length (format_time self))
  /\ time_deltas self = map time_delta (format_time self).

(** Everything but the three fields of the cycling state is the same. *)
Definition same_config (self self' : Py3status) : Prop :=
  blocks self' = blocks self
  /\ block_hours self' = block_hours self
  /\ button_change_format self' = button_change_format self
  /\ button_change_time_format self' = button_change_time_format self
  /\ button_reset self' = button_reset self
  /\ cycle self' = cycle self
  /\ format self' = format self
  /\ format_time self' = format_time self
  /\ _items self' = _items self
  /\ multiple_tz self' = multiple_tz self
  /\ time_deltas self' = time_deltas self.

(** The icon can be computed: [datetime.now] gives a time of day, and at
    each time of day the index computed from [block_hours] and [len(blocks)]
    lies within [blocks]. *)
Definition icons_ok (self : Py3status) : Prop :=
  (forall zone now,
     let t := datetime_now zone now in
     0 <= dt_hour t < 24 /\ 0 <= dt_minute t < 60)
  /\ icons_okb (block_hours self) (blocks self) = true.

End Clock.

Arguments TzZone {Zone} z.
Arguments TzUnknown {Zone}.
Arguments blocks {Zone} self : rename.
Arguments block_hours {Zone} self : rename.
Arguments button_change_format {Zone} self : rename.
Arguments button_change_time_format {Zone} self : rename.
Arguments button_reset {Zone} self : rename.
Arguments cycle {Zone} self : rename.
Arguments format {Zone} self : rename.
Arguments format_time {Zone} self : rename.
Arguments _items {Zone} self : rename.
Arguments multiple_tz {Zone} self : rename.
Arguments time_deltas {Zone} self : rename.
Arguments active_time_format {Zone} self : rename.
Arguments _cycle_time {Zone} self : rename.
Arguments active {Zone} self : rename.
Arguments set_active {Zone} self a.
Arguments set_cycle_time {Zone} self t.
Arguments set_active_time_format {Zone} self i.
Arguments _get_timezone {Zone} get_localzone country_timezones timezone tz.
Arguments collect_items {Zone} get_localzone country_timezones timezone matches items.
Arguments post_config_hook {Zone} get_localzone country_timezones timezone c now.
Arguments _change_active {Zone} self diff.
Arguments on_click {Zone} self now event.
Arguments render_item {Zone} zone_name {DateTime} datetime_now dt_hour dt_minute
  strftime safe_format self now zone.
Arguments render_items {Zone} zone_name {DateTime} datetime_now dt_hour dt_minute
  strftime safe_format self r.
Arguments granularity_timeout {Zone} self now.
Arguments clock {Zone} zone_name {DateTime} datetime_now dt_hour dt_minute
  strftime safe_format self r.
Arguments poll_run {Zone} zone_name {DateTime} datetime_now dt_hour dt_minute
  strftime safe_format self rs.
Arguments step {Zone} zone_name {DateTime} datetime_now dt_hour dt_minute
  strftime safe_format _ _.
Arguments dispatch {Zone} self event.
Arguments perform {Zone} self now a.
Arguments auto_cycle {Zone} self r.
Arguments same_config {Zone} self self'.
Arguments indices_ok {Zone} self.
Arguments icons_ok {Zone DateTime} datetime_now dt_hour dt_minute self.

(** A run of clicks with no poll in between, each with the reading of the
    clock it would make. *)
Fixpoint click_run {Zone : Type} (self : Py3status Zone) (clicks : list (Q * Event))
  : result (Py3status Zone) :=
  match clicks with
  | [] => Ok self
  | (now, event) :: rest => do s <- on_click self now event; click_run s rest
  end.

(** Polls at [start + d], [start + 2 d], ..., [start + n d], each reading the
    clock once. *)
Definition ticks (start d : Q) (n : nat) : list Readings :=
  map (fun k => instant (start + inject_Z (Z.of_nat k) * d)%Q) (seq 1 n).

(** ** The specification's wording *)

(** Icon: the index as the specification gives it,
    [floor (((hour + minute / 60) mod block_hours) / block_hours * glyph_count)],
    read in exact arithmetic. *)
Definition icon_index_spec (hour minute block_hours : Z) (nblocks : nat) : result Z :=
  let h := (inject_Z hour + inject_Z minute / 60)%Q in
  if block_hours =? 0 then Raise ZeroDivisionError
  else
    let h := qmod h (inject_Z block_hours) in
    Ok (Qfloor (h / inject_Z block_hours * inject_Z (Z.of_nat nblocks))).

(** The same index in whole minutes. *)
Definition icon_index_minutes (hour minute block_hours : Z) (nblocks : nat) : Z :=
  ((60 * hour + minute) mod (60 * block_hours)) * Z.of_nat nblocks
  / (60 * block_hours).



(** ** A small concrete world

    A timezone database of a few zones with fixed offsets, a formatter that
    substitutes [{key}] fields and drops a bracketed block with an empty
    field, and a [strftime] that leaves the directives in place; used to run
    the module on concrete inputs. *)

Module Sample.

Definition Zone : Type := string.

Definition get_localzone : option Zone := Some "Europe/London".

Definition country_timezones (code : string) : option (list string) :=
  if String.eqb code "de" then Some ["Europe/Berlin"; "Europe/Busingen"]
  else if String.eqb code "jp" then Some ["Asia/Tokyo"]
  else None.

Definition utc_offset (zone : Zone) : Z :=
  if String.eqb zone "Europe/Berlin" then 1
  else if String.eqb zone "Europe/Busingen" then 1
  else if String.eqb zone "Asia/Tokyo" then 9
  else 0.

Definition timezone (name : string) : option Zone :=
  if existsb (String.eqb name)
       ["Europe/London"; "Europe/Berlin"; "Europe/Busingen"; "Asia/Tokyo"; "GMT"]
  then Some name else None.

Definition zone_name (zone : Zone) : string := zone.

Record DateTime : Type := { hour : Z; minute : Z }.

Definition datetime_now (zone : Zone) (t : Q) : DateTime :=
  let s := Qfloor t + 3600 * utc_offset zone in
  {| hour := (s / 3600) mod 24; minute := (s / 60) mod 60 |}.

Definition strftime (t : DateTime) (fmt : string) : string := fmt.

(** [block] is [Some (text, ok)] inside a bracketed block: the text written
    so far and whether every field read in it had a value. *)
Fixpoint substitute (m : gmap string (option string))
  (block : option (string * bool)) (pending : option string) (s : string) : string :=
  match s with
  | EmptyString =>
      match block with Some (text, _) => String "[" text | None => EmptyString end
      ++ match pending with Some buf => String "{" buf | None => EmptyString end
  | String c rest =>
      match pending with
      | Some buf =>
          if Ascii.eqb c "}" then
            let v := match m !! buf with
                     | Some (Some v) => v
                     | _ => EmptyString
                     end in
            match block with
            | Some (text, ok) =>
                substitute m (Some (text ++ v, ok && negb (String.eqb v EmptyString)))
                  None rest
            | None => v ++ substitute m None None rest
            end
          else substitute m block (Some (buf ++ String c EmptyString)) rest
      | None =>
          if Ascii.eqb c "{" then substitute m block (Some EmptyString) rest
          else
            match block with
            | Some (text, ok) =>
                if Ascii.eqb c "]" then
                  (if ok then text else EmptyString) ++ substitute m None None rest
                else substitute m (Some (text ++ String c EmptyString, ok)) None rest
            | None =>
                if Ascii.eqb c "[" then substitute m (Some (EmptyString, true)) None rest
                else String c (substitute m None None rest)
            end
      end
  end.

Definition safe_format (fmt : string) (m : gmap string (option string)) : string :=
  substitute m None None fmt.

Definition State : Type := Py3status Zone.

(** Three displays switched every 10 seconds. *)
Definition three_slots : Config.t :=
  {| Config.blocks := CLOCK_BLOCKS;
     Config.block_hours := 12;
     Config.button_change_format := 1;
     Config.button_change_time_format := 2;
     Config.button_reset := 3;
     Config.cycle := 10%Q;
     Config.format := PyList ["{Europe/London}"; "{Asia/Tokyo}"; "{xx}"];
     Config.format_time := PyList ["{name} %H:%M"; "{icon}"] |}.

(** The instance [post_config_hook] builds from [three_slots] at time 0. *)
Definition three_slots_instance : State :=
  {| blocks := CLOCK_BLOCKS;
     block_hours := 12;
     button_change_format := 1;
     button_change_time_format := 2;
     button_reset := 3;
     cycle := 10%Q;
     format := ["{Europe/London}"; "{Asia/Tokyo}"; "{xx}"];
     format_time := ["{name} %H:%M"; "{icon}"];
     _items := <["Europe/London" := TzZone "Europe/London"]>
                 (<["Asia/Tokyo" := TzZone "Asia/Tokyo"]>
                    (<["xx" := TzUnknown]> ∅));
     multiple_tz := true;
     time_deltas := [60; 60];
     active_time_format := 0;
     _cycle_time := (0 + 10)%Q;
     active := 0 |}.

(** One display given as a plain string, with a cycle of 10 seconds asked. *)
Definition single_slot : Config.t :=
  {| Config.blocks := CLOCK_BLOCKS;
     Config.block_hours := 12;
     Config.button_change_format := 1;
     Config.button_change_time_format := 2;
     Config.button_reset := 3;
     Config.cycle := 10%Q;
     Config.format := PyStr "{Europe/London} / {Asia/Tokyo}";
     Config.format_time := PyStr "%H:%M:%S" |}.

Definition single_slot_instance : State :=
  {| blocks := CLOCK_BLOCKS;
     block_hours := 12;
     button_change_format := 1;
     button_change_time_format := 2;
     button_reset := 3;
     cycle := 0%Q;
     format := ["{Europe/London} / {Asia/Tokyo}"];
     format_time := ["%H:%M:%S"];
     _items := <["Europe/London" := TzZone "Europe/London"]>
                 (<["Asia/Tokyo" := TzZone "Asia/Tokyo"]> ∅);
     multiple_tz := true;
     time_deltas := [1];
     active_time_format := 0;
     _cycle_time := (0 + 0)%Q;
     active := 0 |}.

(** The slot list given as an empty list. *)
Definition no_slots : Config.t :=
  {| Config.blocks := CLOCK_BLOCKS;
     Config.block_hours := 12;
     Config.button_change_format := 1;
     Config.button_change_time_format := 2;
     Config.button_reset := 3;
     Config.cycle := 0%Q;
     Config.format := PyList [];
     Config.format_time := PyList ["%H:%M"] |}.

(** The list of time formats given as an empty list. *)
Definition no_time_formats : Config.t :=
  {| Config.blocks := CLOCK_BLOCKS;
     Config.block_hours := 12;
     Config.button_change_format := 1;
     Config.button_change_time_format := 2;
     Config.button_reset := 3;
     Config.cycle := 0%Q;
     Config.format := PyStr "{Local}";
     Config.format_time := PyList [] |}.

(** The same instance with other buttons. *)
Definition with_buttons (self : State) (b_reset b_time_format b_format : Z) : State :=
  {| blocks := blocks self; block_hours := block_hours self;
     button_change_format := b_format;
     button_change_time_format := b_time_format;
     button_reset := b_reset; cycle := cycle self;
     format := format self; format_time := format_time self;
     _items := _items self; multiple_tz := multiple_tz self;
     time_deltas := time_deltas self;
     active_time_format := active_time_format self;
     _cycle_time := _cycle_time self; active := active self |}.

(** The second display active and the reset button set to 0. *)
Definition reset_disabled : State :=
  with_buttons (set_active three_slots_instance 1) 0 2 1.

(** One button number given to both changes. *)
Definition shared_button : State := with_buttons three_slots_instance 3 1 1.

(** A database with a country that has no zone. *)
Definition country_timezones_with_gap (code : string) : option (list string) :=
  if String.eqb code "zz" then Some [] else country_timezones code.

(** Two displays, the second naming the country that has no zone. *)
Definition gap_slots : Config.t :=
  {| Config.blocks := CLOCK_BLOCKS;
     Config.block_hours := 12;
     Config.button_change_format := 1;
     Config.button_change_time_format := 2;
     Config.button_reset := 3;
     Config.cycle := 10%Q;
     Config.format := PyList ["{Europe/London}"; "{zz}"];
     Config.format_time := PyList ["%H:%M"] |}.

(** The instance [post_config_hook] builds from [no_slots] at time 0. *)
Definition no_slots_instance : State :=
  {| blocks := CLOCK_BLOCKS;
     block_hours := 12;
     button_change_format := 1;
     button_change_time_format := 2;
     button_reset := 3;
     cycle := 0%Q;
     format := [];
     format_time := ["%H:%M"];
     _items := ∅;
     multiple_tz := false;
     time_deltas := [60];
     active_time_format := 0;
     _cycle_time := (0 + 0)%Q;
     active := 0 |}.

(** One display whose only zone is unknown, with no glyph and a period of
    0 hours. *)
Definition only_unknown : State :=
  {| blocks := [];
     block_hours := 0;
     button_change_format := 1;
     button_change_time_format := 2;
     button_reset := 3;
     cycle := 0%Q;
     format := ["{xx} o'clock"];
     format_time := ["{icon}"];
     _items := <["xx" := TzUnknown]> ∅;
     multiple_tz := false;
     time_deltas := [60];
     active_time_format := 0;
     _cycle_time := (0 + 0)%Q;
     active := 0 |}.

(** Two displays for one zone, once by country code and once by name. *)
Definition berlin_twice : Config.t :=
  {| Config.blocks := CLOCK_BLOCKS;
     Config.block_hours := 12;
     Config.button_change_format := 1;
     Config.button_change_time_format := 2;
     Config.button_reset := 3;
     Config.cycle := 10%Q;
     Config.format := PyList ["{de}"; "{Europe/Berlin}"];
     Config.format_time := PyList ["%H:%M"] |}.

(** A period of 0 hours, the icon format active. *)
Definition zero_period : State :=
  {| blocks := CLOCK_BLOCKS;
     block_hours := 0;
     button_change_format := 1;
     button_change_time_format := 2;
     button_reset := 3;
     cycle := 10%Q;
     format := ["{Europe/London}"; "{Asia/Tokyo}"; "{xx}"];
     format_time := ["{name} %H:%M"; "{icon}"];
     _items := <["Europe/London" := TzZone "Europe/London"]>
                 (<["Asia/Tokyo" := TzZone "Asia/Tokyo"]>
                    (<["xx" := TzUnknown]> ∅));
     multiple_tz := true;
     time_deltas := [60; 60];
     active_time_format := 1;
     _cycle_time := (0 + 10)%Q;
     active := 0 |}.

(** No glyph, the icon format active. *)
Definition no_glyphs : State :=
  {| blocks := [];
     block_hours := 12;
     button_change_format := 1;
     button_change_time_format := 2;
     button_reset := 3;
     cycle := 0%Q;
     format := ["{Asia/Tokyo}"];
     format_time := ["{icon}"];
     _items := <["Asia/Tokyo" := TzZone "Asia/Tokyo"]> ∅;
     multiple_tz := false;
     time_deltas := [60];
     active_time_format := 0;
     _cycle_time := (0 + 0)%Q;
     active := 0 |}.

(** A period of 12 hours shared among 36 glyphs, 20 minutes each, in
    London. *)
Definition thirty_six_glyphs : State :=
  {| blocks := ["0"; "1"; "2"; "3"; "4"; "5"; "6"; "7"; "8"; "9"; "a"; "b";
                "c"; "d"; "e"; "f"; "g"; "h"; "i"; "j"; "k"; "l"; "m"; "n";
                "o"; "p"; "q"; "r"; "s"; "t"; "u"; "v"; "w"; "x"; "y"; "z"];
     block_hours := 12;
     button_change_format := 1;
     button_change_time_format := 2;
     button_reset := 3;
     cycle := 0%Q;
     format := ["{Europe/London}"];
     format_time := ["{icon}"];
     _items := <["Europe/London" := TzZone "Europe/London"]> ∅;
     multiple_tz := false;
     time_deltas := [60];
     active_time_format := 0;
     _cycle_time := (0 + 0)%Q;
     active := 0 |}.

Definition post_config_hook : Config.t -> Q -> result State :=
  post_config_hook get_localzone country_timezones timezone.

Definition on_click : State -> Q -> Event -> result State := on_click.

Definition clock : State -> Readings -> result (State * Output) :=
  clock zone_name datetime_now hour minute strftime safe_format.

Definition poll_run : State -> list Readings -> result State :=
  poll_run zone_name datetime_now hour minute strftime safe_format.

End Sample.

(** * Properties *)

Example sample_poll :
  (do s <- Sample.post_config_hook default_config 0%Q;
   do r <- Sample.clock s (instant 30%Q); Ok (snd r))
  = Ok {| full_text := "%c"; cached_until := 31%Q |}.
Proof. vm_compute. reflexivity. Qed.

(** ** Scanning *)

Section ScanFacts.
Import Scan.

Lemma prefix_char c d s :
  String.prefix (String c EmptyString) (String d s) = Ascii.eqb c d.
Proof.
  simpl. destruct (ascii_dec c d) as [->|Hne].
  - rewrite Ascii.eqb_refl. now destruct s.
  - symmetry. now apply Ascii.eqb_neq.
Qed.

Lemma contains_char_cons c d s :
  contains (String c EmptyString) (String d s)
  = Ascii.eqb c d || contains (String c EmptyString) s.
Proof.
  change (contains (String c EmptyString) (String d s))
    with (String.prefix (String c EmptyString) (String d s)
          || contains (String c EmptyString) s).
  now rewrite prefix_char.
Qed.

Lemma contains_char_nil c : contains (String c EmptyString) EmptyString = false.
Proof. reflexivity. Qed.


Lemma string_app_cons c (a b : string) : String c a ++ b = String c (a ++ b).
Proof. reflexivity. Qed.

Lemma string_app_nil_r (a : string) : a ++ EmptyString = a.
Proof. induction a as [|x a IH]; [reflexivity|]. now rewrite string_app_cons, IH. Qed.

Lemma string_app_assoc (a b c : string) : (a ++ b) ++ c = a ++ (b ++ c).
Proof.
  induction a as [|x a IH]; [reflexivity|]. now rewrite !string_app_cons, IH.
Qed.

(** Inside a candidate match: the characters up to the first closing brace
    become the captured group, and the scan goes on after it. *)
Lemma scan_pending buf tok post :
  contains "}" tok = false ->
  scan (Some buf) (tok ++ String "}" post)
  = (fst (scan None post), (buf ++ tok) :: snd (scan None post)).
Proof.
  revert buf. induction tok as [|d tok IH]; intros buf H.
  - change (EmptyString ++ String "}" post) with (String "}" post).
    simpl. destruct (scan None post) as [out toks]. simpl.
    now rewrite string_app_nil_r.
  - rewrite contains_char_cons in H. apply orb_false_iff in H as [Hd Ht].
    rewrite string_app_cons. simpl. rewrite Ascii.eqb_sym, Hd.
    rewrite IH by assumption. now rewrite string_app_assoc.
Qed.

(** The text before the first opening brace is kept; a span closed by a
    brace is removed and its inside captured. *)
Lemma scan_span pre tok post :
  contains "{" pre = false ->
  contains "}" tok = false ->
  scan None (pre ++ String "{" (tok ++ String "}" post))
  = (pre ++ fst (scan None post), tok :: snd (scan None post)).
Proof.
  intros Hpre Htok. induction pre as [|d pre IH].
  - change (EmptyString ++ ?x) with x. simpl. now rewrite scan_pending.
  - rewrite contains_char_cons in Hpre. apply orb_false_iff in Hpre as [Hd Hp].
    rewrite !string_app_cons. simpl.
    rewrite Ascii.eqb_sym, Hd, IH by assumption. reflexivity.
Qed.

(** An opening brace that is never closed matches nothing. *)
Lemma scan_unclosed buf s :
  contains "}" s = false ->
  scan (Some buf) s = (String "{" (buf ++ s), []).
Proof.
  revert buf. induction s as [|d s IH]; intros buf H.
  - simpl. now rewrite string_app_nil_r.
  - rewrite contains_char_cons in H. apply orb_false_iff in H as [Hd Hs].
    simpl. rewrite Ascii.eqb_sym, Hd, IH by assumption.
    now rewrite string_app_assoc.
Qed.

Lemma remove_percent_percent_cons c s :
  remove_percent_percent (String c s)
  = if Ascii.eqb c "%" then
      match s with
      | String d rest =>
          if Ascii.eqb d "%" then remove_percent_percent rest
          else String c (remove_percent_percent s)
      | EmptyString => String c EmptyString
      end
    else String c (remove_percent_percent s).
Proof.
  destruct (Ascii.eqb c "%") eqn:Hc.
  - apply Ascii.eqb_eq in Hc. subst c. destruct s as [|d rest]; [reflexivity|].
    destruct (Ascii.eqb d "%") eqn:Hd.
    + apply Ascii.eqb_eq in Hd. now subst d.
    + apply Ascii.eqb_neq in Hd.
      destruct d as [[] [] [] [] [] [] [] []]; try reflexivity. now elim Hd.
  - apply Ascii.eqb_neq in Hc.
    destruct c as [[] [] [] [] [] [] [] []]; try reflexivity. now elim Hc.
Qed.


End ScanFacts.

(** ** Refresh interval of a time format *)


Lemma time_delta_range fmt :
  time_delta fmt = 0 \/ time_delta fmt = 1 \/ time_delta fmt = 60.
Proof.
  unfold time_delta.
  repeat match goal with |- context [if ?b then _ else _] => destruct b end; auto.
Qed.



(** ** Arithmetic on deadlines *)

Lemma Qfloor_unique (x : Q) (z : Z) :
  (inject_Z z <= x)%Q -> (x < inject_Z (z + 1))%Q -> Qfloor x = z.
Proof.
  intros Hle Hlt.
  pose proof (Qfloor_le x) as H1. pose proof (Qlt_floor x) as H2.
  assert (z < Qfloor x + 1)%Z.
  { rewrite Zlt_Qlt. eapply Qle_lt_trans; eassumption. }
  assert (Qfloor x < z + 1)%Z.
  { rewrite Zlt_Qlt. eapply Qle_lt_trans; eassumption. }
  lia.
Qed.

Lemma qmod_inject_Z (x g : Z) :
  g <> 0 -> (qmod (inject_Z x) (inject_Z g) == inject_Z (x mod g))%Q.
Proof.
  intros Hg. unfold qmod. rewrite <- Zdiv_Qdiv.
  rewrite (Z.mod_eq x g Hg).
  unfold Zminus. rewrite inject_Z_plus, inject_Z_opp, inject_Z_mult. ring.
Qed.


Lemma pymin_Qmin (a b : Q) : (pymin a b == Qmin a b)%Q.
Proof.
  unfold pymin. destruct (Qle_bool a b) eqn:E.
  - apply Qle_bool_iff in E. symmetry. now apply Q.min_l.
  - assert (b <= a)%Q.
    { destruct (Qlt_le_dec b a) as [H|H]; [now apply Qlt_le_weak|].
      apply Qle_bool_iff in H. congruence. }
    symmetry. now apply Q.min_r.
Qed.


(** ** Icon selection *)

Example sixty_is_60 : Float.of_int 60 = Ok Float.sixty.
Proof. reflexivity. Qed.

(** The formula of the specification, in whole minutes. *)
Lemma icon_index_spec_minutes (hour minute block_hours : Z) (nblocks : nat) :
  block_hours <> 0 ->
  icon_index_spec hour minute block_hours nblocks
  = Ok (icon_index_minutes hour minute block_hours nblocks).
Proof.
  intros Hb. unfold icon_index_spec, icon_index_minutes.
  destruct (Z.eqb_spec block_hours 0) as [|_]; [contradiction|]. f_equal.
  set (T := 60 * hour + minute). set (D := 60 * block_hours).
  assert (HD : D <> 0) by (unfold D; lia).
  assert (HbQ : ~ (inject_Z block_hours == 0)%Q).
  { intros E. apply Hb. now apply inject_Z_injective. }
  assert (Hh : (inject_Z hour + inject_Z minute / 60 == inject_Z T / 60)%Q).
  { unfold T. rewrite inject_Z_plus, inject_Z_mult. change (inject_Z 60) with 60%Q. field. }
  assert (Hfl : Qfloor ((inject_Z hour + inject_Z minute / 60) / inject_Z block_hours)
                = T / D).
  { rewrite Zdiv_Qdiv. apply Qfloor_comp. rewrite Hh. unfold D.
    rewrite inject_Z_mult. change (inject_Z 60) with 60%Q. now field. }
  rewrite Zdiv_Qdiv. apply Qfloor_comp.
  unfold qmod. rewrite Hfl, Hh.
  rewrite inject_Z_mult. rewrite (Z.mod_eq T D HD).
  unfold Zminus. rewrite inject_Z_plus, inject_Z_opp, inject_Z_mult.
  unfold D. rewrite !inject_Z_mult. change (inject_Z 60) with 60%Q. now field.
Qed.

Lemma icon_index_minutes_range (hour minute block_hours : Z) (nblocks : nat) :
  0 < block_hours ->
  0 <= icon_index_minutes hour minute block_hours nblocks
  /\ (nblocks <> 0%nat ->
      icon_index_minutes hour minute block_hours nblocks < Z.of_nat nblocks).
Proof.
  intros Hb. unfold icon_index_minutes.
  set (D := 60 * block_hours). assert (HD : 0 < D) by (unfold D; lia).
  pose proof (Z.mod_pos_bound (60 * hour + minute) D HD) as HM.
  set (M := (60 * hour + minute) mod D) in *.
  split.
  - apply Z.div_pos; [apply Z.mul_nonneg_nonneg|]; lia.
  - intros Hn. apply Z.div_lt_upper_bound; [exact HD|]. nia.
Qed.

Lemma day_times_elem (hour minute : Z) :
  0 <= hour < 24 -> 0 <= minute < 60 -> In (hour, minute) day_times.
Proof.
  intros Hh Hm. unfold day_times. apply in_flat_map. exists hour. split.
  - apply list_elem_of_In, elem_of_seqZ. lia.
  - apply in_map. apply list_elem_of_In, elem_of_seqZ. lia.
Qed.

(** What has been checked at every time of day holds at each of them. *)
Lemma day_times_forallb (P : Z -> Z -> bool) (hour minute : Z) :
  forallb (fun '(h, m) => P h m) day_times = true ->
  0 <= hour < 24 -> 0 <= minute < 60 -> P hour minute = true.
Proof.
  intros H Hh Hm. rewrite forallb_forall in H.
  exact (H (hour, minute) (day_times_elem hour minute Hh Hm)).
Qed.

Lemma returns_int_eq (m : result Z) (z : Z) : returns_int m z = true -> m = Ok z.
Proof.
  destruct m as [i|e]; simpl; [|discriminate].
  intros H. apply Z.eqb_eq in H. now subst.
Qed.

Lemma icons_okb_at (block_hours : Z) (blocks : list string) (hour minute : Z) :
  icons_okb block_hours blocks = true ->
  0 <= hour < 24 -> 0 <= minute < 60 ->
  exists idx g,
    icon_index hour minute block_hours (length blocks) = Ok idx
    /\ getitem blocks idx = Ok g.
Proof.
  intros H Hh Hm.
  pose proof (day_times_forallb
                (fun h m => is_ok (icon_at h m block_hours blocks)) _ _ H Hh Hm) as E.
  unfold icon_at in E.
  destruct (icon_index hour minute block_hours (length blocks)) as [idx|];
    simpl in E; [|discriminate].
  destruct (getitem blocks idx) as [g|] eqn:Hg; [|discriminate]. eauto.
Qed.

(** The decimal hour of each time of day has a float. *)
Lemma decimal_hour_returns (hour minute : Z) :
  0 <= hour < 24 -> 0 <= minute < 60 ->
  exists h, decimal_hour hour minute = Ok h.
Proof.
  intros Hh Hm.
  assert (E : is_ok (decimal_hour hour minute) = true).
  { apply (day_times_forallb (fun h m => is_ok (decimal_hour h m)));
      [vm_compute; reflexivity | assumption | assumption]. }
  destruct (decimal_hour hour minute) as [h|]; [eauto | discriminate].
Qed.

(** With the default period and glyphs the float index is the exact one at
    every time of day. *)
Lemma default_icon_index (hour minute : Z) :
  0 <= hour < 24 -> 0 <= minute < 60 ->
  icon_index hour minute 12 24 = Ok (icon_index_minutes hour minute 12 24).
Proof.
  intros Hh Hm. apply returns_int_eq.
  apply (day_times_forallb
           (fun h m => returns_int (icon_index h m 12 24)
                         (icon_index_minutes h m 12 24)));
    [vm_compute; reflexivity | assumption | assumption].
Qed.

(** A period of 0 hours: [h % 0] raises. *)
Lemma icon_index_zero_period (hour minute : Z) (nblocks : nat) :
  0 <= hour < 24 -> 0 <= minute < 60 ->
  icon_index hour minute 0 nblocks = Raise ZeroDivisionError.
Proof.
  intros Hh Hm. unfold icon_index.
  destruct (decimal_hour_returns hour minute Hh Hm) as [h ->]. reflexivity.
Qed.

Lemma default_icons_okb : icons_okb 12 CLOCK_BLOCKS = true.
Proof. vm_compute. reflexivity. Qed.

(** A positive period and a glyph are not enough for the icon: a period
    too large for a float makes the conversion raise. *)
Example period_too_large :
  icon_index 11 59 (2 ^ 1024) 24 = Raise OverflowError
  /\ icons_okb (2 ^ 1024) CLOCK_BLOCKS = false.
Proof. split; vm_compute; reflexivity. Qed.

Lemma sample_time_of_day (zone : Sample.Zone) (now : Q) :
  let t := Sample.datetime_now zone now in
  0 <= Sample.hour t < 24 /\ 0 <= Sample.minute t < 60.
Proof. simpl. split; apply Z.mod_pos_bound; lia. Qed.

(** On the sample world the icon of the default period and glyphs can be
    computed. *)
Lemma sample_icons_ok (self : Sample.State) :
  block_hours self = 12 -> blocks self = CLOCK_BLOCKS ->
  icons_ok Sample.datetime_now Sample.hour Sample.minute self.
Proof.
  intros Eb En. split; [apply sample_time_of_day|].
  rewrite Eb, En. apply default_icons_okb.
Qed.

(** ** The sample world at work *)

Example three_slots_init :
  Sample.post_config_hook Sample.three_slots 0%Q = Ok Sample.three_slots_instance.
Proof. vm_compute. reflexivity. Qed.

Example three_slots_poll :
  (do r <- Sample.clock Sample.three_slots_instance (instant 3%Q); Ok (snd r))
  = Ok {| full_text := "London %H:%M"; cached_until := (0 + 10)%Q |}.
Proof. vm_compute. reflexivity. Qed.

(** ** Clicks *)

Section Clicks.
Context {Zone : Type}.
Implicit Types (self : Py3status Zone) (event : Event) (now : Q).

Lemma same_config_refl self : same_config self self.
Proof. repeat split. Qed.

Lemma same_config_trans self1 self2 self3 :
  same_config self1 self2 -> same_config self2 self3 -> same_config self1 self3.
Proof.
  unfold same_config. intros H1 H2.
  decompose [and] H1. decompose [and] H2. repeat split; congruence.
Qed.

Lemma _change_active_ok self diff self' :
  _change_active self diff = Ok self' ->
  format self <> []
  /\ self' = set_active self ((active self + diff) mod Z.of_nat (length (format self))).
Proof.
  unfold _change_active. destruct (Z.eqb_spec (Z.of_nat (length (format self))) 0) as [E|E].
  - discriminate.
  - intros [= <-]. split; [|reflexivity]. intros Hnil. now rewrite Hnil in E.
Qed.

Lemma _change_active_returns self diff :
  format self <> [] ->
  _change_active self diff
  = Ok (set_active self ((active self + diff) mod Z.of_nat (length (format self)))).
Proof.
  intros Hne. unfold _change_active.
  destruct (Z.eqb_spec (Z.of_nat (length (format self))) 0) as [E|E]; [|reflexivity].
  destruct (format self); [contradiction | discriminate].
Qed.

Lemma on_click_dispatch self now event :
  on_click self now event = perform self now (dispatch self event).
Proof.
  unfold on_click, dispatch.
  destruct (button event =? button_reset self); [reflexivity|].
  destruct (button event =? button_change_time_format self); [reflexivity|].
  destruct (button event =? button_change_format self); reflexivity.
Qed.

Lemma on_click_same_config self now event self' :
  on_click self now event = Ok self' -> same_config self self'.
Proof.
  rewrite on_click_dispatch. destruct (dispatch self event) as [[]|]; simpl.
  - intros [= <-]. repeat split.
  - intros [= <-]. repeat split.
  - intros H. apply _change_active_ok in H as [_ ->]. repeat split.
  - intros [= <-]. apply same_config_refl.
Qed.

Lemma on_click_indices_ok self now event self' :
  indices_ok self -> on_click self now event = Ok self' -> indices_ok self'.
Proof.
  intros (Ha & Ht & Hd). rewrite on_click_dispatch.
  destruct (dispatch self event) as [[]|]; simpl.
  - intros [= <-]. unfold indices_ok; simpl. repeat split; try tauto; lia.
  - intros [= <-]. unfold indices_ok; simpl. repeat split; try tauto;
      destruct (Z.leb_spec (Z.of_nat (length (format_time self)))
                  (active_time_format self + 1)); lia.
  - intros H. apply _change_active_ok in H as [Hne ->].
    unfold indices_ok; simpl. repeat split; try tauto;
      apply Z.mod_pos_bound; lia.
  - now intros [= <-].
Qed.

(** A click never raises on an instance whose slot list is not empty. *)
Lemma on_click_returns self now event :
  format self <> [] -> exists self', on_click self now event = Ok self'.
Proof.
  intros Hne. rewrite on_click_dispatch.
  destruct (dispatch self event) as [[]|]; simpl; eauto.
  rewrite _change_active_returns by assumption. eauto.
Qed.

End Clicks.

Section ClickClaims.
Context {Zone : Type}.
Implicit Types (self : Py3status Zone) (event : Event) (now : Q).

(** C4. A click whose button is the configured reset button sets the active
    slot to 0 and the cycle deadline to [now + cycle], whatever the active
    slot was; the active time format and the configuration are untouched. *)
Theorem on_click_reset self now event :
  button event = button_reset self ->
  exists self',
    on_click self now event = Ok self'
    /\ active self' = 0
    /\ _cycle_time self' = (now + cycle self)%Q
    /\ active_time_format self' = active_time_format self
    /\ same_config self self'.
Proof.
  intros Hb. unfold on_click. rewrite Hb, Z.eqb_refl.
  eexists. split; [reflexivity|]. repeat split.
Qed.


(** C8, as the code has it. On an instance whose indices are in range, a
    click whose
    button is the time-format button and not the reset button sets the active
    time format to [(index + 1) mod M] and leaves the active slot and the
    cycle deadline as they are; a click whose button is the slot button and
    neither of the other two sets the active slot to [(slot + 1) mod N] and
    leaves the cycle deadline and the active time format as they are. *)
Theorem on_click_advance self now event :
  indices_ok self ->
  (button event = button_change_time_format self ->
   button event <> button_reset self ->
   exists self',
     on_click self now event = Ok self'
     /\ active_time_format self'
        = (active_time_format self + 1) mod Z.of_nat (length (format_time self))
     /\ active self' = active self
     /\ _cycle_time self' = _cycle_time self)
  /\ (button event = button_change_format self ->
      button event <> button_reset self ->
      button event <> button_change_time_format self ->
      exists self',
        on_click self now event = Ok self'
        /\ active self' = (active self + 1) mod Z.of_nat (length (format self))
        /\ _cycle_time self' = _cycle_time self
        /\ active_time_format self' = active_time_format self).
Proof.
  intros (Ha & Ht & _). split.
  - intros Hb Hr. unfold on_click.
    destruct (Z.eqb_spec (button event) (button_reset self)); [contradiction|].
    rewrite Hb, Z.eqb_refl. eexists. split; [reflexivity|]. simpl.
    repeat split.
    set (M := Z.of_nat (length (format_time self))) in *.
    destruct (Z.leb_spec M (active_time_format self + 1)).
    + assert (active_time_format self + 1 = M) as -> by lia.
      now rewrite Z.mod_same by lia.
    + now rewrite Z.mod_small by lia.
  - intros Hb Hr Hf. unfold on_click.
    destruct (Z.eqb_spec (button event) (button_reset self)); [contradiction|].
    destruct (Z.eqb_spec (button event) (button_change_time_format self));
      [contradiction|].
    rewrite Hb, Z.eqb_refl.
    rewrite _change_active_returns
      by (intros E; rewrite E in Ha; simpl in Ha; lia).
    eexists. split; [reflexivity|]. repeat split.
Qed.

End ClickClaims.

Lemma on_click_reset_witness :
  exists self',
    on_click (set_active Sample.three_slots_instance 2) 5%Q {| button := 3 |} = Ok self'
    /\ active self' = 0
    /\ _cycle_time self' = (5 + 10)%Q
    /\ active_time_format self' = 0
    /\ same_config (set_active Sample.three_slots_instance 2) self'.
Proof.
  apply (on_click_reset (set_active Sample.three_slots_instance 2) 5%Q
           {| button := 3 |}).
  reflexivity.
Defined.

(** [on_click] itself has no test for 0.  An event whose button is 0,
    which no X11 click produces, would take the reset branch of an instance
    whose reset button is set to 0. *)
Remark button_0_would_reset :
  button_reset Sample.reset_disabled = 0
  /\ active Sample.reset_disabled = 1
  /\ ~ x11_button {| button := 0 |}
  /\ dispatch Sample.reset_disabled {| button := 0 |} = Some Reset
  /\ exists self',
       on_click Sample.reset_disabled 5%Q {| button := 0 |} = Ok self'
       /\ active self' = 0
       /\ _cycle_time self' = (5 + 10)%Q.
Proof.
  split; [reflexivity|]. split; [reflexivity|].
  split; [unfold x11_button; simpl; lia|]. split; [reflexivity|].
  eexists. split; [reflexivity|]. split; reflexivity.
Qed.


(** With one button number given to both changes, a click on it takes the
    time-format branch: the active slot stays 0 where [(0 + 1) mod 3] is 1. *)
Lemma shared_button_leaves_slot :
  button {| button := 1 |} = button_change_format Sample.shared_button
  /\ indices_ok Sample.shared_button
  /\ exists self',
       on_click Sample.shared_button 5%Q {| button := 1 |} = Ok self'
       /\ active self' = 0
       /\ active_time_format self' = 1
       /\ active self'
          <> (active Sample.shared_button + 1)
               mod Z.of_nat (length (format Sample.shared_button)).
Proof.
  split; [reflexivity|].
  split; [unfold indices_ok; simpl; repeat split; lia|].
  eexists. split; [reflexivity|].
  split; [reflexivity|]. split; [reflexivity | discriminate].
Qed.

Lemma on_click_advance_witness :
  (exists self',
     on_click Sample.three_slots_instance 5%Q {| button := 2 |} = Ok self'
     /\ active_time_format self' = (0 + 1) mod 2
     /\ active self' = 0
     /\ _cycle_time self' = (0 + 10)%Q)
  /\ (exists self',
        on_click Sample.three_slots_instance 5%Q {| button := 1 |} = Ok self'
        /\ active self' = (0 + 1) mod 3
        /\ _cycle_time self' = (0 + 10)%Q
        /\ active_time_format self' = 0).
Proof.
  assert (Hok : indices_ok Sample.three_slots_instance)
    by (unfold indices_ok; simpl; repeat split; lia).
  pose proof (on_click_advance Sample.three_slots_instance 5%Q {| button := 2 |}
                Hok) as [H2 _].
  pose proof (on_click_advance Sample.three_slots_instance 5%Q {| button := 1 |}
                Hok) as [_ H1].
  split.
  - apply H2; [reflexivity | discriminate].
  - apply H1; [reflexivity | discriminate | discriminate].
Defined.

(** ** Lists and results *)

Lemma rbind_ok {A B} (m : result A) (k : A -> result B) (b : B) :
  rbind m k = Ok b -> exists a, m = Ok a /\ k a = Ok b.
Proof. destruct m as [a|e]; simpl; [eauto | discriminate]. Qed.

Lemma getitem_in_range {A} (l : list A) (i : Z) :
  0 <= i < Z.of_nat (length l) ->
  exists x, getitem l i = Ok x /\ l !! Z.to_nat i = Some x.
Proof.
  intros Hi. unfold getitem.
  destruct (Z.ltb_spec i 0); [lia|].
  destruct (Z.leb_spec 0 i); [|lia].
  destruct (Z.ltb_spec i (Z.of_nat (length l))); [|lia]. simpl.
  destruct (lookup_lt_is_Some_2 l (Z.to_nat i)) as [x Hx]; [lia|].
  rewrite Hx. eauto.
Qed.

Lemma getitem_nil {A} (i : Z) : getitem (@nil A) i = Raise IndexError.
Proof.
  unfold getitem. cbn [length lookup list_lookup].
  now destruct (_ && _).
Qed.

Lemma getitem_map {A B} (f : A -> B) (l : list A) (i : Z) (y : B) :
  getitem (map f l) i = Ok y -> exists x, getitem l i = Ok x /\ y = f x.
Proof.
  unfold getitem. rewrite length_map.
  destruct (_ && _); [|discriminate].
  change (map f l) with (f <$> l). rewrite list_lookup_fmap.
  destruct (l !! _) as [x|]; simpl; [|discriminate].
  intros [= <-]. eauto.
Qed.

Lemma rmapM_ok {A B} (f : A -> result B) (l : list A) (ys : list B) :
  rmapM f l = Ok ys -> Forall2 (fun x y => f x = Ok y) l ys.
Proof.
  revert ys. induction l as [|x l IH]; simpl; intros ys H.
  - injection H as <-. constructor.
  - apply rbind_ok in H as (y & Hy & H).
    apply rbind_ok in H as (ys' & Hys & H). injection H as <-.
    constructor; auto.
Qed.

Lemma rmapM_returns {A B} (f : A -> result B) (l : list A) :
  Forall (fun x => exists y, f x = Ok y) l -> exists ys, rmapM f l = Ok ys.
Proof.
  induction 1 as [|x l [y Hy] _ [ys Hys]]; simpl; [eauto|].
  rewrite Hy, Hys. simpl. eauto.
Qed.

(** ** Polls *)

Section Polls.
Context {Zone : Type} (zone_name : Zone -> string).
Context {DateTime : Type} (datetime_now : Zone -> Q -> DateTime).
Context (dt_hour dt_minute : DateTime -> Z).
Context (strftime : DateTime -> string -> string).
Context (safe_format : string -> gmap string (option string) -> string).
Implicit Types (self : Py3status Zone) (r : Readings) (now : Q).

Local Abbreviation render :=
  (render_item zone_name datetime_now dt_hour dt_minute strftime safe_format).
Local Abbreviation render_all :=
  (render_items zone_name datetime_now dt_hour dt_minute strftime safe_format).
Local Abbreviation icons_ok := (icons_ok datetime_now dt_hour dt_minute).
Local Abbreviation poll :=
  (clock zone_name datetime_now dt_hour dt_minute strftime safe_format).
Local Abbreviation polls :=
  (poll_run zone_name datetime_now dt_hour dt_minute strftime safe_format).
Local Abbreviation host_step :=
  (step zone_name datetime_now dt_hour dt_minute strftime safe_format).

(** The timer fires exactly when cycling is on and the clock has reached the
    deadline; it then makes the next slot active and sets the deadline anew. *)
Lemma auto_cycle_ok self r self' :
  auto_cycle self r = Ok self' ->
  same_config self self'
  /\ active_time_format self' = active_time_format self
  /\ if truthy (cycle self) && Qle_bool (_cycle_time self) (at_cycle_test r)
     then format self <> []
          /\ active self' = (active self + 1) mod Z.of_nat (length (format self))
          /\ _cycle_time self' = (at_cycle_rearm r + cycle self)%Q
     else self' = self.
Proof.
  unfold auto_cycle.
  destruct (truthy (cycle self) && Qle_bool (_cycle_time self) (at_cycle_test r)).
  - intros H. apply rbind_ok in H as (s & Hs & H). injection H as <-.
    apply _change_active_ok in Hs as [Hne ->]. repeat split. exact Hne.
  - intros [= <-]. repeat split.
Qed.

Lemma auto_cycle_returns self r :
  format self <> [] -> exists self', auto_cycle self r = Ok self'.
Proof.
  intros Hne. unfold auto_cycle.
  destruct (_ && _); [|eauto].
  rewrite _change_active_returns by assumption. simpl. eauto.
Qed.

Lemma auto_cycle_indices_ok self r self' :
  indices_ok self -> auto_cycle self r = Ok self' -> indices_ok self'.
Proof.
  intros (Ha & Ht & Hd) H. apply auto_cycle_ok in H as (Hc & Hf & H).
  unfold same_config in Hc. decompose [and] Hc. clear Hc.
  destruct (_ && _).
  - destruct H as (Hne & Hact & _). unfold indices_ok.
    repeat split; try congruence; try lia.
    + rewrite Hact. replace (format self') with (format self) by congruence.
      apply Z.mod_pos_bound. lia.
    + rewrite Hact. replace (format self') with (format self) by congruence.
      apply Z.mod_pos_bound. lia.
    + replace (format_time self') with (format_time self) by congruence. lia.
  - subst self'. repeat split; tauto.
Qed.

(** What a poll that returns has done, line by line. *)
Lemma clock_inv self r self' out :
  poll self r = Ok (self', out) ->
  exists times g fmt,
    auto_cycle self r = Ok self'
    /\ render_all self' r = Ok times
    /\ getitem (time_deltas self') (active_time_format self') = Ok g
    /\ getitem (format self') (active self') = Ok fmt
    /\ full_text out = safe_format fmt (Some <$> times)
    /\ cached_until out
       = let now := at_timeout r in
         let timeout :=
           if negb (g =? 0) then (now + inject_Z g - qmod now (inject_Z g))%Q
           else 0%Q in
         if truthy (cycle self') then pymin timeout (_cycle_time self')
         else timeout.
Proof.
  unfold clock. intros H.
  apply rbind_ok in H as (s & Hs & H).
  apply rbind_ok in H as (times & Ht & H).
  apply rbind_ok in H as (timeout & Hg & H).
  apply rbind_ok in H as (fmt & Hf & H).
  injection H as <- <-.
  unfold granularity_timeout in Hg. apply rbind_ok in Hg as (g & Hg & Hto).
  exists times, g, fmt. repeat split; try assumption. simpl.
  destruct (negb (g =? 0)); injection Hto as <-; reflexivity.
Qed.

Lemma clock_same_config self r self' out :
  poll self r = Ok (self', out) -> same_config self self'.
Proof.
  intros H. apply clock_inv in H as (? & ? & ? & H & _).
  now apply auto_cycle_ok in H as [H _].
Qed.

Lemma clock_indices_ok self r self' out :
  indices_ok self -> poll self r = Ok (self', out) -> indices_ok self'.
Proof.
  intros Hok H. apply clock_inv in H as (? & ? & ? & H & _).
  eapply auto_cycle_indices_ok; eassumption.
Qed.

(** An unresolved zone is rendered without reading the time format. *)
Lemma render_item_unknown self now : render self now TzUnknown = Ok "?".
Proof. reflexivity. Qed.

Lemma render_item_returns self now zone :
  indices_ok self -> icons_ok self -> exists s, render self now zone = Ok s.
Proof.
  intros (_ & Ht & _) (Hday & Hb). destruct zone as [z|]; [|simpl; eauto].
  unfold render_item.
  destruct (getitem_in_range (format_time self) _ Ht) as (fmt & -> & _). simpl.
  destruct (Scan.contains "{icon}" fmt); simpl; [|eauto].
  destruct (Hday z now) as [Hh Hm].
  destruct (icons_okb_at _ _ _ _ Hb Hh Hm) as (idx & g & -> & Hg). simpl.
  rewrite Hg. simpl. eauto.
Qed.

Lemma render_items_returns self r :
  indices_ok self -> icons_ok self -> exists times, render_all self r = Ok times.
Proof.
  intros Hi Hc. unfold render_items.
  destruct (rmapM_returns
              (fun '(name, zone) =>
                 do s <- render self (at_item r name) zone; Ok (name, s))
              (map_to_list (_items self))) as [l Hl].
  - apply Forall_forall. intros [name zone] _.
    destruct (render_item_returns self (at_item r name) zone Hi Hc) as [s Hs].
    rewrite Hs. simpl. eauto.
  - rewrite Hl. simpl. eauto.
Qed.

(** The table of rendered times has, for each entry of [_items], what the
    body of the loop gives for it. *)
Lemma render_items_lookup self r times name zone :
  render_all self r = Ok times ->
  _items self !! name = Some zone ->
  exists s, render self (at_item r name) zone = Ok s /\ times !! name = Some s.
Proof.
  unfold render_items. intros H Hz.
  apply rbind_ok in H as (l & Hl & H). injection H as <-.
  apply rmapM_ok in Hl.
  assert (Hfst : l.*1 = (map_to_list (_items self)).*1).
  { clear Hz. revert Hl. generalize (map_to_list (_items self)). intros xs Hl.
    induction Hl as [|[n z] [n' s'] xs ys Hxy _ IH]; [reflexivity|].
    apply rbind_ok in Hxy as (s & _ & Hxy). injection Hxy as <- <-.
    rewrite !fmap_cons. simpl. now f_equal. }
  apply elem_of_map_to_list in Hz.
  destruct (proj1 (list_elem_of_lookup _ _) Hz) as [i Hi].
  destruct (Forall2_lookup_l _ _ _ _ _ Hl Hi) as ([n' s] & Hy & Hf).
  apply rbind_ok in Hf as (s0 & Hs0 & Hf). injection Hf as <- <-.
  exists s0. split; [exact Hs0|].
  apply elem_of_list_to_map_1.
  - rewrite Hfst. apply NoDup_fst_map_to_list.
  - eapply list_elem_of_lookup_2. exact Hy.
Qed.

(** A poll returns on an instance whose indices are in range and whose icon
    can be computed. *)
Lemma clock_returns self r :
  indices_ok self -> icons_ok self ->
  exists self' out, poll self r = Ok (self', out).
Proof.
  intros Hi Hc. unfold clock.
  assert (Hne : format self <> []).
  { destruct Hi as (Ha & _). intros E. rewrite E in Ha. simpl in Ha. lia. }
  destruct (auto_cycle_returns self r Hne) as [s Hs]. rewrite Hs. simpl.
  pose proof (auto_cycle_indices_ok _ _ _ Hi Hs) as Hi'.
  assert (Hc' : icons_ok s).
  { apply auto_cycle_ok in Hs as (Hsame & _). unfold same_config in Hsame.
    decompose [and] Hsame. destruct Hc as [Hday Hb]. split; [exact Hday|].
    now replace (block_hours s) with (block_hours self);
      replace (blocks s) with (blocks self). }
  destruct (render_items_returns s r Hi' Hc') as [times ->]. simpl.
  destruct Hi' as (Ha & Ht & Hd).
  unfold granularity_timeout.
  destruct (getitem_in_range (time_deltas s) (active_time_format s)) as (g & -> & _).
  { rewrite Hd, length_map. exact Ht. }
  simpl.
  destruct (getitem_in_range (format s) (active s) Ha) as (fmt & -> & _).
  destruct (negb (g =? 0)); simpl; eauto.
Qed.

End Polls.

Lemma qmod_comp (x x' y y' : Q) :
  (x == x')%Q -> (y == y')%Q -> (qmod x y == qmod x' y')%Q.
Proof.
  intros Hx Hy. unfold qmod.
  assert (E : Qfloor (x / y) = Qfloor (x' / y'))
    by (apply Qfloor_comp; now rewrite Hx, Hy).
  now rewrite E, Hx, Hy.
Qed.



Section PollClaims.
Context {Zone : Type} (zone_name : Zone -> string).
Context {DateTime : Type} (datetime_now : Zone -> Q -> DateTime).
Context (dt_hour dt_minute : DateTime -> Z).
Context (strftime : DateTime -> string -> string).
Context (safe_format : string -> gmap string (option string) -> string).
Implicit Types (self : Py3status Zone) (r : Readings) (now : Q).

Local Abbreviation icons_ok := (icons_ok datetime_now dt_hour dt_minute).
Local Abbreviation poll :=
  (clock zone_name datetime_now dt_hour dt_minute strftime safe_format).
Local Abbreviation polls :=
  (poll_run zone_name datetime_now dt_hour dt_minute strftime safe_format).
Local Abbreviation host_step :=
  (step zone_name datetime_now dt_hour dt_minute strftime safe_format).

(** C1. A poll returns on every instance whose indices are in range and
    whose icon can be computed; and whenever a poll returns, [cached_until]
    is the granularity deadline when cycling is off and the smaller of the
    granularity deadline and the cycle deadline when it is on, where the
    granularity deadline is 0 for an interval [g] of 0 and
    [now + g - now mod g] otherwise, [g] being the interval computed from the
    active time format; for [g = 60] and [now] a whole number of seconds [X]
    this is [X + 60 - X mod 60]. *)
Theorem clock_cached_until self r :
  (indices_ok self -> icons_ok self ->
   exists self' out, poll self r = Ok (self', out))
  /\ forall self' out,
       poll self r = Ok (self', out) ->
       exists g,
         getitem (time_deltas self') (active_time_format self') = Ok g
         /\ time_deltas self' = time_deltas self
         /\ active_time_format self' = active_time_format self
         /\ cycle self' = cycle self
         /\ (time_deltas self = map time_delta (format_time self) ->
             exists fmt,
               getitem (format_time self) (active_time_format self) = Ok fmt
               /\ g = time_delta fmt)
         /\ let now := at_timeout r in
            let granularity_deadline :=
              if g =? 0 then 0%Q
              else (now + inject_Z g - qmod now (inject_Z g))%Q in
            cached_until out
            = (if truthy (cycle self')
               then pymin granularity_deadline (_cycle_time self')
               else granularity_deadline)
            /\ (pymin granularity_deadline (_cycle_time self')
                == Qmin granularity_deadline (_cycle_time self'))%Q
            /\ forall X : Z,
                 g = 60 -> (now == inject_Z X)%Q ->
                 (granularity_deadline == inject_Z (X + 60 - X mod 60))%Q.
Proof.
  split; [apply clock_returns|].
  intros self' out H.
  pose proof (clock_inv _ _ _ _ _ _ _ _ _ _ H)
    as (times & g & fmt & Hc & _ & Hg & _ & _ & Hcu).
  apply auto_cycle_ok in Hc as (Hsame & Hatf & _).
  unfold same_config in Hsame. decompose [and] Hsame. clear Hsame.
  exists g. repeat split; try assumption.
  - intros Hd. apply getitem_map. congruence.
  - rewrite Hcu. simpl. now destruct (g =? 0).
  - apply pymin_Qmin.
  - intros X -> HX. simpl.
    rewrite (qmod_comp _ (inject_Z X) _ (inject_Z 60) HX) by reflexivity.
    rewrite qmod_inject_Z by lia. rewrite HX.
    unfold Zminus. rewrite !inject_Z_plus, inject_Z_opp. reflexivity.
Qed.

Lemma step_same_config self self' : host_step self self' -> same_config self self'.
Proof.
  destruct 1 as [s now event s' H | s r s' out H].
  - eapply on_click_same_config; eassumption.
  - eapply clock_same_config; eassumption.
Qed.

Lemma step_indices_ok self self' :
  host_step self self' -> indices_ok self -> indices_ok self'.
Proof.
  destruct 1 as [s now event s' H | s r s' out H]; intros Hok.
  - eapply on_click_indices_ok; eassumption.
  - eapply clock_indices_ok; eassumption.
Qed.

Lemma steps_same_config self self' :
  rtc host_step self self' -> same_config self self'.
Proof.
  induction 1 as [|s1 s2 s3 H _ IH]; [apply same_config_refl|].
  eapply same_config_trans; [|exact IH]. now apply step_same_config.
Qed.

Lemma steps_indices_ok self self' :
  rtc host_step self self' -> indices_ok self -> indices_ok self'.
Proof.
  induction 1 as [|s1 s2 s3 H _ IH]; [tauto|].
  intros Hok. apply IH. eapply step_indices_ok; eassumption.
Qed.

Lemma same_config_icons_ok self self' :
  same_config self self' -> icons_ok self -> icons_ok self'.
Proof.
  unfold same_config. intros Hs [Hday Hb]. decompose [and] Hs.
  split; [exact Hday|].
  now replace (block_hours self') with (block_hours self);
    replace (blocks self') with (blocks self).
Qed.

End PollClaims.

Lemma clock_cached_until_witness :
  (exists self' out,
     Sample.clock Sample.three_slots_instance (instant 125%Q) = Ok (self', out))
  /\ exists g,
       getitem (time_deltas (set_cycle_time (set_active Sample.three_slots_instance 1)
                               (125 + 10)%Q)) 0 = Ok g
       /\ g = 60
       /\ (pymin (125 + inject_Z g - qmod 125 (inject_Z g)) (125 + 10)
           == inject_Z (125 + 10))%Q.
Proof.
  pose proof (clock_cached_until Sample.zone_name Sample.datetime_now Sample.hour
                Sample.minute Sample.strftime Sample.safe_format
                Sample.three_slots_instance (instant 125%Q)) as [Hret Hcu].
  split.
  - apply Hret.
    + unfold indices_ok. simpl. repeat split; lia.
    + apply sample_icons_ok; reflexivity.
  - destruct (Hcu (set_cycle_time (set_active Sample.three_slots_instance 1) (125 + 10)%Q)
                {| full_text := "Tokyo %H:%M"; cached_until := (125 + 10)%Q |})
      as (g & Hg & _).
    + vm_compute. reflexivity.
    + exists g. split; [exact Hg|]. injection Hg as <-.
      split; [reflexivity|]. vm_compute. reflexivity.
Defined.

(** ** Initialisation *)

Section Init.
Context {Zone : Type} (get_localzone : option Zone).
Context (country_timezones : string -> option (list string)).
Context (timezone : string -> option Zone).
Implicit Types (self : Py3status Zone) (tz : string).

Local Abbreviation resolve := (_get_timezone get_localzone country_timezones timezone).
Local Abbreviation collect := (collect_items get_localzone country_timezones timezone).
Local Abbreviation init := (post_config_hook get_localzone country_timezones timezone).

(** The only exception that leaves [_get_timezone] is the one of [zones[0]]
    on an empty list of zones. *)
Lemma _get_timezone_returns tz :
  country_timezones tz <> Some [] -> exists z, resolve tz = Ok z.
Proof.
  intros Hne. unfold _get_timezone.
  destruct (String.eqb tz "Local"); [destruct get_localzone; eauto|].
  destruct (String.length tz =? 2)%nat.
  - destruct (country_timezones tz) as [[|z zs]|]; [contradiction| |eauto].
    change (getitem (z :: zs) 0) with (Ok (A:=string) z). simpl.
    destruct (timezone z); eauto.
  - destruct (timezone tz); eauto.
Qed.

Lemma collect_items_other ms items items' tz :
  collect ms items = Ok items' -> tz ∉ ms -> items' !! tz = items !! tz.
Proof.
  revert items. induction ms as [|m ms IH]; intros items H Hnot.
  - now injection H as <-.
  - simpl in H. apply rbind_ok in H as (z & Hz & H).
    apply not_elem_of_cons in Hnot as [Hne Hnot].
    rewrite (IH _ H Hnot). now apply lookup_insert_ne.
Qed.

(** Every token found is a key of [_items], with what [_get_timezone] gives
    for it. *)
Lemma collect_items_lookup ms items items' tz :
  collect ms items = Ok items' -> tz ∈ ms ->
  exists z, resolve tz = Ok z /\ items' !! tz = Some z.
Proof.
  revert items. induction ms as [|m ms IH]; intros items H Hin.
  - now apply elem_of_nil in Hin.
  - simpl in H. apply rbind_ok in H as (z & Hz & H).
    destruct (decide (tz ∈ ms)) as [Hms|Hms]; [now apply (IH _ H)|].
    apply elem_of_cons in Hin as [->|Hin]; [|contradiction].
    exists z. split; [exact Hz|].
    rewrite (collect_items_other _ _ _ _ H Hms). apply lookup_insert_eq.
Qed.

Lemma collect_items_dom ms items items' tz z :
  collect ms items = Ok items' -> items' !! tz = Some z ->
  tz ∈ ms \/ items !! tz = Some z.
Proof.
  intros H Hz. destruct (decide (tz ∈ ms)) as [Hms|Hms]; [now left|].
  right. now rewrite <- (collect_items_other _ _ _ _ H Hms).
Qed.

Lemma collect_items_returns ms items :
  (forall tz, tz ∈ ms -> country_timezones tz <> Some []) ->
  exists items', collect ms items = Ok items'.
Proof.
  revert items. induction ms as [|m ms IH]; intros items Hdb; simpl; [eauto|].
  destruct (_get_timezone_returns m) as [z ->]; [apply Hdb; left|]. simpl.
  apply IH. intros tz Htz. apply Hdb. now right.
Qed.

(** What [post_config_hook] builds when it returns. *)
Lemma post_config_hook_ok c t0 self :
  init c t0 = Ok self ->
  format self = as_list (Config.format c)
  /\ format_time self = as_list (Config.format_time c)
  /\ time_deltas self = map time_delta (format_time self)
  /\ cycle self = (if (length (format self) =? 1)%nat then 0%Q else Config.cycle c)
  /\ _cycle_time self = (t0 + cycle self)%Q
  /\ active self = 0 /\ active_time_format self = 0
  /\ blocks self = Config.blocks c /\ block_hours self = Config.block_hours c
  /\ collect (Scan.findall_placeholders (String.concat "" (format self))) ∅
     = Ok (_items self).
Proof.
  unfold post_config_hook. intros H.
  apply rbind_ok in H as (items & Hitems & H). injection H as <-.
  simpl. repeat split. exact Hitems.
Qed.

Lemma post_config_hook_returns c t0 :
  (forall tz, country_timezones tz <> Some []) -> exists self, init c t0 = Ok self.
Proof.
  intros Hdb. unfold post_config_hook.
  destruct (collect_items_returns
              (Scan.findall_placeholders (String.concat "" (as_list (Config.format c))))
              ∅) as [items ->]; [auto|].
  simpl. eauto.
Qed.

Lemma post_config_hook_indices_ok c t0 self :
  init c t0 = Ok self ->
  as_list (Config.format c) <> [] -> as_list (Config.format_time c) <> [] ->
  indices_ok self.
Proof.
  intros H Hf Ht. apply post_config_hook_ok in H
    as (Ef & Et & Ed & _ & _ & Ea & Eatf & _).
  unfold indices_ok. rewrite Ea, Eatf, Ef, Et.
  repeat split; try lia; try congruence.
  - destruct (as_list (Config.format c)); [contradiction|simpl; lia].
  - destruct (as_list (Config.format_time c)); [contradiction|simpl; lia].
Qed.

End Init.

(** ** Unresolved zones, empty lists, single slots *)

Section Claims.
Context {Zone : Type} (get_localzone : option Zone).
Context (country_timezones : string -> option (list string)).
Context (timezone : string -> option Zone).
Context (zone_name : Zone -> string).
Context {DateTime : Type} (datetime_now : Zone -> Q -> DateTime).
Context (dt_hour dt_minute : DateTime -> Z).
Context (strftime : DateTime -> string -> string).
Context (safe_format : string -> gmap string (option string) -> string).
Implicit Types (self : Py3status Zone) (r : Readings) (now : Q) (tz : string).

Local Abbreviation resolve := (_get_timezone get_localzone country_timezones timezone).
Local Abbreviation init := (post_config_hook get_localzone country_timezones timezone).
Local Abbreviation render :=
  (render_item zone_name datetime_now dt_hour dt_minute strftime safe_format).
Local Abbreviation icons_ok := (icons_ok datetime_now dt_hour dt_minute).
Local Abbreviation poll :=
  (clock zone_name datetime_now dt_hour dt_minute strftime safe_format).
Local Abbreviation polls :=
  (poll_run zone_name datetime_now dt_hour dt_minute strftime safe_format).
Local Abbreviation host_step :=
  (step zone_name datetime_now dt_hour dt_minute strftime safe_format).

(** C6. A token whose zone cannot be resolved (the local zone cannot be
    determined, the country code is unknown, the zone name is unknown) makes
    [_get_timezone] return the unresolved marker, not raise; initialisation
    returns whenever no country has an empty list of zones and stores the
    marker under the token; and from then on the body of the loop gives ["?"]
    for it at every time format, so every poll that returns has ["?"] under
    the token in the table it hands to the formatter. *)
Theorem unresolved_zone_renders_question_mark tz :
  (tz = "Local" -> get_localzone = None -> resolve tz = Ok TzUnknown)
  /\ (tz <> "Local" -> String.length tz = 2%nat -> country_timezones tz = None ->
      resolve tz = Ok TzUnknown)
  /\ (tz <> "Local" -> String.length tz <> 2%nat -> timezone tz = None ->
      resolve tz = Ok TzUnknown)
  /\ (forall c t0,
        (forall code, country_timezones code <> Some []) ->
        exists self, init c t0 = Ok self)
  /\ (forall c t0 self,
        init c t0 = Ok self ->
        tz ∈ Scan.findall_placeholders (String.concat "" (as_list (Config.format c))) ->
        resolve tz = Ok TzUnknown ->
        _items self !! tz = Some TzUnknown)
  /\ (forall self,
        _items self !! tz = Some TzUnknown ->
        (forall self' : Py3status Zone, forall now, render self' now TzUnknown = Ok "?")
        /\ forall r self' out,
             poll self r = Ok (self', out) ->
             _items self' !! tz = Some TzUnknown
             /\ exists times fmt,
                  times !! tz = Some "?"
                  /\ getitem (format self') (active self') = Ok fmt
                  /\ full_text out = safe_format fmt (Some <$> times)).
Proof.
  repeat apply conj.
  - intros -> H. unfold _get_timezone. simpl. now rewrite H.
  - intros Hl Hlen H. unfold _get_timezone.
    apply String.eqb_neq in Hl. rewrite Hl, Hlen, H. reflexivity.
  - intros Hl Hlen H. unfold _get_timezone.
    apply String.eqb_neq in Hl. rewrite Hl.
    apply Nat.eqb_neq in Hlen. rewrite Hlen, H. reflexivity.
  - intros c t0 Hdb. now apply post_config_hook_returns.
  - intros c t0 self H Hin Hres.
    apply post_config_hook_ok in H as (Ef & _ & _ & _ & _ & _ & _ & _ & _ & Hc).
    rewrite Ef in Hc.
    destruct (collect_items_lookup _ _ _ _ _ _ tz Hc Hin) as (z & Hz & Hlook).
    rewrite Hres in Hz. injection Hz as <-. exact Hlook.
  - intros self Hz. split; [reflexivity|].
    intros r self' out H.
    pose proof (clock_inv _ _ _ _ _ _ _ _ _ _ H)
      as (times & g & fmt & Hc & Hr & _ & Hf & Hft & _).
    apply auto_cycle_ok in Hc as (Hsame & _).
    assert (Hi : _items self' = _items self)
      by (unfold same_config in Hsame; tauto).
    rewrite Hi. split; [exact Hz|].
    rewrite <- Hi in Hz.
    destruct (render_items_lookup _ _ _ _ _ _ _ _ _ _ _ Hr Hz) as (s & Hs & Hlook).
    injection Hs as <-. eauto.
Qed.

(** C9, as the code has it. After initialisation the slot list and the
    time-format
    list are the configured values, a plain string having become the list of
    that one string; so when each is a plain string or a list that is not
    empty, neither list is empty, initialisation returns (no country having
    an empty list of zones) with both indices in range, and every later poll
    returns (the icon being computable at every time of day). An empty
    list is kept as it is, and every poll then raises. *)
Theorem lists_after_init c t0 :
  (forall self,
     init c t0 = Ok self ->
     format self = as_list (Config.format c)
     /\ format_time self = as_list (Config.format_time c))
  /\ (forall s, as_list (PyStr s) = [s])
  /\ ((forall code, country_timezones code <> Some []) ->
      as_list (Config.format c) <> [] ->
      as_list (Config.format_time c) <> [] ->
      exists self,
        init c t0 = Ok self
        /\ format self <> [] /\ format_time self <> []
        /\ indices_ok self
        /\ (icons_ok self ->
            forall self', rtc host_step self self' ->
            forall r, exists self'' out, poll self' r = Ok (self'', out)))
  /\ (forall self,
        init c t0 = Ok self ->
        as_list (Config.format c) = [] \/ as_list (Config.format_time c) = [] ->
        forall self', rtc host_step self self' ->
        forall r, is_ok (poll self' r) = false).
Proof.
  repeat apply conj.
  - intros self H. apply post_config_hook_ok in H. tauto.
  - reflexivity.
  - intros Hdb Hf Ht.
    destruct (post_config_hook_returns get_localzone country_timezones timezone
                c t0 Hdb) as [self Hself].
    exists self. split; [exact Hself|].
    pose proof (post_config_hook_indices_ok _ _ _ _ _ _ Hself Hf Ht) as Hok.
    pose proof (post_config_hook_ok _ _ _ _ _ _ Hself)
      as (Ef & Et & _ & _ & _ & _ & _ & Eb & Ebh & _).
    split; [congruence|]. split; [congruence|]. split; [exact Hok|].
    intros Hic self' Hsteps r.
    apply clock_returns.
    + eapply steps_indices_ok; eassumption.
    + eapply same_config_icons_ok; [eapply steps_same_config; eassumption|].
      exact Hic.
  - intros self H Hempty self' Hsteps r.
    pose proof (post_config_hook_ok _ _ _ _ _ _ H) as (Ef & Et & Ed & _).
    apply steps_same_config in Hsteps. unfold same_config in Hsteps.
    decompose [and] Hsteps. clear Hsteps.
    destruct (poll self' r) as [[s out]|e] eqn:Hp; [|reflexivity]. exfalso.
    pose proof (clock_inv _ _ _ _ _ _ _ _ _ _ Hp)
      as (times & g & fmt & Hc & _ & Hg & Hfm & _).
    apply auto_cycle_ok in Hc as (Hsame & _). unfold same_config in Hsame.
    decompose [and] Hsame. clear Hsame.
    destruct Hempty as [E|E].
    + assert (format s = []) as Hs by congruence.
      rewrite Hs, getitem_nil in Hfm. discriminate.
    + assert (time_deltas s = []) as Hs.
      { replace (time_deltas s) with (time_deltas self) by congruence.
        rewrite Ed, Et, E. reflexivity. }
      rewrite Hs, getitem_nil in Hg. discriminate.
Qed.

(** C10. When the slot list has exactly one element (a plain string
    included), initialisation sets [cycle] to 0 whatever was configured; it
    stays 0 through every click and poll, so the timer never fires (a poll
    leaves the active slot, which is 0, and the cycle deadline as they are)
    and [cached_until] is the granularity deadline alone. *)
Theorem single_slot_never_cycles c t0 self0 :
  length (as_list (Config.format c)) = 1%nat ->
  init c t0 = Ok self0 ->
  cycle self0 = 0%Q
  /\ (forall s, as_list (PyStr s) = [s])
  /\ forall self,
       rtc host_step self0 self ->
       cycle self = 0%Q
       /\ forall r self' out,
            poll self r = Ok (self', out) ->
            auto_cycle self r = Ok self
            /\ active self' = active self
            /\ _cycle_time self' = _cycle_time self
            /\ exists g,
                 getitem (time_deltas self) (active_time_format self) = Ok g
                 /\ cached_until out
                    = if g =? 0 then 0%Q
                      else (at_timeout r + inject_Z g
                            - qmod (at_timeout r) (inject_Z g))%Q.
Proof.
  intros Hlen H.
  pose proof (post_config_hook_ok _ _ _ _ _ _ H) as (Ef & _ & _ & Ec & _).
  assert (Hc0 : cycle self0 = 0%Q) by (now rewrite Ec, Ef, Hlen).
  split; [exact Hc0|]. split; [reflexivity|].
  intros self Hsteps.
  assert (Hc : cycle self = 0%Q).
  { apply steps_same_config in Hsteps. unfold same_config in Hsteps.
    decompose [and] Hsteps. congruence. }
  split; [exact Hc|]. intros r self' out Hp.
  pose proof (clock_inv _ _ _ _ _ _ _ _ _ _ Hp)
    as (times & g & fmt & Hac & _ & Hg & _ & _ & Hcu).
  assert (Hself : self' = self).
  { apply auto_cycle_ok in Hac as (_ & _ & Hac). now rewrite Hc in Hac. }
  subst self'. repeat split; try assumption.
  exists g. split; [exact Hg|]. rewrite Hcu, Hc. simpl. now destruct (g =? 0).
Qed.

End Claims.

(** ** Cycling *)



Section Cycling.
Context {Zone : Type} (zone_name : Zone -> string).
Context {DateTime : Type} (datetime_now : Zone -> Q -> DateTime).
Context (dt_hour dt_minute : DateTime -> Z).
Context (strftime : DateTime -> string -> string).
Context (safe_format : string -> gmap string (option string) -> string).
Implicit Types (self : Py3status Zone) (r : Readings) (now : Q).

Local Abbreviation icons_ok := (icons_ok datetime_now dt_hour dt_minute).
Local Abbreviation poll :=
  (clock zone_name datetime_now dt_hour dt_minute strftime safe_format).
Local Abbreviation polls :=
  (poll_run zone_name datetime_now dt_hour dt_minute strftime safe_format).




End Cycling.

Section CyclingClaim.
Context {Zone : Type} (zone_name : Zone -> string).
Context {DateTime : Type} (datetime_now : Zone -> Q -> DateTime).
Context (dt_hour dt_minute : DateTime -> Z).
Context (strftime : DateTime -> string -> string).
Context (safe_format : string -> gmap string (option string) -> string).
Implicit Types (self : Py3status Zone) (r : Readings) (now : Q).

Local Abbreviation icons_ok := (icons_ok datetime_now dt_hour dt_minute).
Local Abbreviation poll :=
  (clock zone_name datetime_now dt_hour dt_minute strftime safe_format).
Local Abbreviation polls :=
  (poll_run zone_name datetime_now dt_hour dt_minute strftime safe_format).


End CyclingClaim.



Example cycling_on_ticks_value :
  (do s <- Sample.poll_run Sample.three_slots_instance (ticks 0 1 25);
   Ok (active s, _cycle_time s))
  = Ok (2, (20 + 10)%Q).
Proof. vm_compute. reflexivity. Qed.

(** ** The icon *)

Section Icon.
Context {Zone : Type} (zone_name : Zone -> string).
Context {DateTime : Type} (datetime_now : Zone -> Q -> DateTime).
Context (dt_hour dt_minute : DateTime -> Z).
Context (strftime : DateTime -> string -> string).
Context (safe_format : string -> gmap string (option string) -> string).
Implicit Types (self : Py3status Zone) (now : Q).

Local Abbreviation render :=
  (render_item zone_name datetime_now dt_hour dt_minute strftime safe_format).

(** When the active time format has the icon placeholder, the glyph
    substituted for [icon] is [blocks[idx]], [idx] the index of lines
    217-221. *)
Lemma render_item_icon self now (zone : Zone) (fmt : string) :
  getitem (format_time self) (active_time_format self) = Ok fmt ->
  Scan.contains "{icon}" fmt = true ->
  let t := datetime_now zone now in
  render self now (TzZone zone)
  = (do idx <- icon_index (dt_hour t) (dt_minute t) (block_hours self)
                 (length (blocks self));
     do g <- getitem (blocks self) idx;
     let timezone := zone_name zone in
     let tzname := underscores_to_spaces (after_last_slash timezone) in
     Ok (strftime t
           (safe_format fmt
              (<["icon" := Some g]> (<["name" := Some tzname]>
                 (<["name_" := if multiple_tz self then Some tzname else None]>
                    (<["timezone" := Some timezone]> ∅))))))).
Proof.
  intros Hfmt Hicon t. unfold render_item. fold t. rewrite Hfmt. simpl.
  rewrite Hicon.
  destruct (icon_index (dt_hour t) (dt_minute t) (block_hours self)
              (length (blocks self))) as [idx|e]; [|reflexivity].
  simpl. destruct (getitem (blocks self) idx); reflexivity.
Qed.

End Icon.

(** C7. The index is computed in binary64 floats, every operation rounded,
    and is not always the floor of the exact value.  With 24 glyphs and a
    period of 12 hours, 00:00 gives 0, 06:00 gives 12 and 11:59 gives 23, as
    the formula does.  With 36 glyphs and a period of 12 hours, each glyph
    stands for 20 minutes and the formula gives
    [floor ((1 + 40 / 60) / 12 * 36) = 5] at 01:40.  The code computes
    [40 / 60.] as 6004799503160661 * 2^-53, below 2/3; the decimal hour as
    7505999378950826 * 2^-52, which is 1.6666666666666665; the product as
    5629499534213119 * 2^-50, which is 4.999999999999999 and one unit in the
    last place below 5; and so the index 4: at 01:40 the poll still shows
    the glyph of 01:20 to 01:39. *)
Theorem icon_index_rounds_below_formula :
  icon_index 0 0 12 24 = Ok 0
  /\ icon_index 6 0 12 24 = Ok 12
  /\ icon_index 11 59 12 24 = Ok 23
  /\ icon_index_spec 1 40 12 36 = Ok 5
  /\ icon_index_minutes 1 40 12 36 = 5
  /\ (do m <- Float.of_int 40; Float.div m Float.sixty)
     = Ok (SpecFloat.S754_finite false 6004799503160661 (-53))
  /\ decimal_hour 1 40 = Ok (SpecFloat.S754_finite false 7505999378950826 (-52))
  /\ (do h <- decimal_hour 1 40;
      do b <- Float.of_int 12;
      do h <- Float.rem h b;
      do q <- Float.div h b;
      do n <- Float.of_int 36;
      Ok (Float.mul q n))
     = Ok (SpecFloat.S754_finite false 5629499534213119 (-50))
  /\ Float.of_int 5 = Ok (SpecFloat.S754_finite false 5629499534213120 (-50))
  /\ icon_index 1 40 12 36 = Ok 4
  /\ (let t := Sample.datetime_now "Europe/London" 6000%Q in
      Sample.hour t = 1 /\ Sample.minute t = 40)
  /\ render_item Sample.zone_name Sample.datetime_now Sample.hour Sample.minute
       Sample.strftime Sample.safe_format Sample.thirty_six_glyphs 6000%Q
       (TzZone "Europe/London")
     = Ok "4"
  /\ getitem (blocks Sample.thirty_six_glyphs) 5 = Ok "5".
Proof.
  split; [vm_compute; reflexivity|].
  split; [vm_compute; reflexivity|].
  split; [vm_compute; reflexivity|].
  split; [rewrite icon_index_spec_minutes by discriminate; reflexivity|].
  split; [reflexivity|].
  split; [vm_compute; reflexivity|].
  split; [vm_compute; reflexivity|].
  split; [vm_compute; reflexivity|].
  split; [vm_compute; reflexivity|].
  split; [vm_compute; reflexivity|].
  split; [split; reflexivity|].
  split; vm_compute; reflexivity.
Qed.

Example icon_rendered :
  render_item Sample.zone_name Sample.datetime_now Sample.hour Sample.minute
    Sample.strftime Sample.safe_format
    (set_active_time_format Sample.three_slots_instance 1) 9000%Q
    (TzZone "Asia/Tokyo")
  = Ok "🕦".
Proof. vm_compute. reflexivity. Qed.

(** ** Unresolved zones, empty lists and single slots on the sample world *)

Lemma unresolved_zone_renders_question_mark_witness :
  _get_timezone Sample.get_localzone Sample.country_timezones Sample.timezone "xx"
  = Ok TzUnknown
  /\ _get_timezone Sample.get_localzone Sample.country_timezones Sample.timezone
       "Mars/Olympus" = Ok TzUnknown
  /\ _items Sample.three_slots_instance !! "xx" = Some TzUnknown
  /\ exists times fmt,
       times !! "xx" = Some "?"
       /\ getitem (format (set_active Sample.three_slots_instance 2)) 2 = Ok fmt
       /\ "?" = Sample.safe_format fmt (Some <$> times).
Proof.
  pose proof (unresolved_zone_renders_question_mark Sample.get_localzone
                Sample.country_timezones Sample.timezone Sample.zone_name
                Sample.datetime_now Sample.hour Sample.minute Sample.strftime
                Sample.safe_format "xx") as (_ & Hcode & _ & _ & Hinit & Hpoll).
  pose proof (unresolved_zone_renders_question_mark Sample.get_localzone
                Sample.country_timezones Sample.timezone Sample.zone_name
                Sample.datetime_now Sample.hour Sample.minute Sample.strftime
                Sample.safe_format "Mars/Olympus") as (_ & _ & Hname & _).
  assert (Hxx : _get_timezone Sample.get_localzone Sample.country_timezones
                  Sample.timezone "xx" = Ok TzUnknown)
    by (apply Hcode; [discriminate | reflexivity | reflexivity]).
  split; [exact Hxx|].
  split; [apply Hname; [discriminate | discriminate | reflexivity]|].
  assert (Hitem : _items Sample.three_slots_instance !! "xx" = Some TzUnknown).
  { apply (Hinit Sample.three_slots 0%Q).
    - vm_compute. reflexivity.
    - vm_compute. right. right. left.
    - exact Hxx. }
  split; [exact Hitem|].
  destruct (Hpoll (set_active Sample.three_slots_instance 2) Hitem) as [_ Hp].
  destruct (Hp (instant 3%Q) (set_active Sample.three_slots_instance 2)
              {| full_text := "?"; cached_until := (0 + 10)%Q |})
    as (_ & times & fmt & Ht & Hf & Hfull).
  - vm_compute. reflexivity.
  - exists times, fmt. auto.
Defined.

(** Given an empty list, [post_config_hook] keeps it: no default takes its
    place, and the poll that follows raises [IndexError]. *)
Lemma empty_list_is_kept :
  (exists self,
     Sample.post_config_hook Sample.no_slots 0%Q = Ok self
     /\ format self = []
     /\ Sample.clock self (instant 1%Q) = Raise IndexError)
  /\ (exists self,
        Sample.post_config_hook Sample.no_time_formats 0%Q = Ok self
        /\ format_time self = []
        /\ Sample.clock self (instant 1%Q) = Raise IndexError).
Proof.
  split; eexists; (split; [vm_compute; reflexivity|]);
    (split; [reflexivity | vm_compute; reflexivity]).
Qed.

Lemma sample_country_lists (code : string) :
  Sample.country_timezones code <> Some [].
Proof.
  unfold Sample.country_timezones.
  destruct (String.eqb code "de"); [discriminate|].
  destruct (String.eqb code "jp"); discriminate.
Qed.

Lemma lists_after_init_witness :
  exists self,
    Sample.post_config_hook default_config 0%Q = Ok self
    /\ format self <> [] /\ format_time self <> []
    /\ indices_ok self
    /\ forall r, exists self'' out, Sample.clock self r = Ok (self'', out).
Proof.
  pose proof (lists_after_init Sample.get_localzone Sample.country_timezones
                Sample.timezone Sample.zone_name Sample.datetime_now Sample.hour
                Sample.minute Sample.strftime Sample.safe_format
                default_config 0%Q) as (_ & _ & H & _).
  destruct H as (self & Hinit & Hf & Ht & Hok & Hpoll).
  - apply sample_country_lists.
  - discriminate.
  - discriminate.
  - exists self. split; [exact Hinit|]. split; [exact Hf|]. split; [exact Ht|].
    split; [exact Hok|].
    intros r. apply Hpoll; [|apply rtc_refl].
    pose proof (post_config_hook_ok _ _ _ _ _ _ Hinit)
      as (_ & _ & _ & _ & _ & _ & _ & Eb & Ebh & _).
    apply sample_icons_ok; [exact Ebh | exact Eb].
Defined.

Lemma single_slot_never_cycles_witness :
  Sample.post_config_hook Sample.single_slot 0%Q = Ok Sample.single_slot_instance
  /\ cycle Sample.single_slot_instance = 0%Q
  /\ exists g,
       getitem (time_deltas Sample.single_slot_instance) 0 = Ok g
       /\ (125 + 1)%Q
          = if g =? 0 then 0%Q
            else (125 + inject_Z g - qmod 125 (inject_Z g))%Q.
Proof.
  assert (Hinit : Sample.post_config_hook Sample.single_slot 0%Q
                  = Ok Sample.single_slot_instance) by (vm_compute; reflexivity).
  split; [exact Hinit|].
  destruct (single_slot_never_cycles Sample.get_localzone Sample.country_timezones
              Sample.timezone Sample.zone_name Sample.datetime_now Sample.hour
              Sample.minute Sample.strftime Sample.safe_format
              Sample.single_slot 0%Q Sample.single_slot_instance)
    as (Hc & _ & Hrun); [reflexivity | exact Hinit |].
  split; [exact Hc|].
  destruct (Hrun Sample.single_slot_instance (rtc_refl _ _)) as [_ Hp].
  destruct (Hp (instant 125%Q) Sample.single_slot_instance
              {| full_text := "%H:%M:%S / %H:%M:%S"; cached_until := (125 + 1)%Q |})
    as (_ & _ & _ & g & Hg & Hcu).
  - vm_compute. reflexivity.
  - exists g. split; [exact Hg | exact Hcu].
Defined.

(** * Further properties *)

(** ** Runs of clicks *)

Section ClickRuns.
Context {Zone : Type}.
Implicit Types (self : Py3status Zone) (event : Event) (now : Q).

Lemma set_active_time_format_same self :
  set_active_time_format self (active_time_format self) = self.
Proof. now destruct self. Qed.

Lemma set_active_same self : set_active self (active self) = self.
Proof. now destruct self. Qed.

(** A click on the time-format button alone. *)
Lemma on_click_time_format self now event :
  indices_ok self ->
  button event = button_change_time_format self ->
  button event <> button_reset self ->
  on_click self now event
  = Ok (set_active_time_format self
          ((active_time_format self + 1) mod Z.of_nat (length (format_time self)))).
Proof.
  intros (_ & Ht & _) Hb Hr. unfold on_click.
  destruct (Z.eqb_spec (button event) (button_reset self)); [contradiction|].
  rewrite Hb, Z.eqb_refl. do 2 f_equal.
  set (M := Z.of_nat (length (format_time self))) in *.
  destruct (Z.leb_spec M (active_time_format self + 1)).
  - assert (active_time_format self + 1 = M) as -> by lia.
    now rewrite Z.mod_same by lia.
  - now rewrite Z.mod_small by lia.
Qed.

(** A click on the slot button alone. *)
Lemma on_click_change_format self now event :
  indices_ok self ->
  button event = button_change_format self ->
  button event <> button_reset self ->
  button event <> button_change_time_format self ->
  on_click self now event
  = Ok (set_active self ((active self + 1) mod Z.of_nat (length (format self)))).
Proof.
  intros (Ha & _ & _) Hb Hr Ht. unfold on_click.
  destruct (Z.eqb_spec (button event) (button_reset self)); [contradiction|].
  destruct (Z.eqb_spec (button event) (button_change_time_format self));
    [contradiction|].
  rewrite Hb, Z.eqb_refl. apply _change_active_returns.
  intros E. rewrite E in Ha. simpl in Ha. lia.
Qed.

Lemma click_run_time_format self clicks :
  indices_ok self ->
  button_change_time_format self <> button_reset self ->
  Forall (fun c => button (snd c) = button_change_time_format self) clicks ->
  click_run self clicks
  = Ok (set_active_time_format self
          ((active_time_format self + Z.of_nat (length clicks))
             mod Z.of_nat (length (format_time self)))).
Proof.
  intros Hok Hr Hall. revert self Hok Hr Hall.
  induction clicks as [|[now event] rest IH]; intros self Hok Hr Hall.
  - simpl. rewrite Z.add_0_r, Z.mod_small by (destruct Hok as (_ & ? & _); lia).
    now rewrite set_active_time_format_same.
  - apply Forall_cons in Hall as [Hb Hall]. simpl in Hb.
    cbn [click_run]. rewrite on_click_time_format by congruence. cbn [rbind].
    set (M := Z.of_nat (length (format_time self))).
    assert (HM : 0 < M) by (destruct Hok as (_ & ? & _); unfold M; lia).
    rewrite IH.
    + cbn. fold M. f_equal. f_equal.
      rewrite Z.add_mod_idemp_l by lia. f_equal. lia.
    + destruct Hok as (Ha & Ht & Hd). split; [exact Ha|].
      split; [cbn; apply Z.mod_pos_bound; exact HM | exact Hd].
    + exact Hr.
    + exact Hall.
Qed.

Lemma click_run_change_format self clicks :
  indices_ok self ->
  button_change_format self <> button_reset self ->
  button_change_format self <> button_change_time_format self ->
  Forall (fun c => button (snd c) = button_change_format self) clicks ->
  click_run self clicks
  = Ok (set_active self
          ((active self + Z.of_nat (length clicks))
             mod Z.of_nat (length (format self)))).
Proof.
  intros Hok Hr Ht Hall. revert self Hok Hr Ht Hall.
  induction clicks as [|[now event] rest IH]; intros self Hok Hr Ht Hall.
  - simpl. rewrite Z.add_0_r, Z.mod_small by (destruct Hok as (? & _); lia).
    now rewrite set_active_same.
  - apply Forall_cons in Hall as [Hb Hall]. simpl in Hb.
    cbn [click_run]. rewrite on_click_change_format by congruence. cbn [rbind].
    set (N := Z.of_nat (length (format self))).
    assert (HN : 0 < N) by (destruct Hok as (? & _); unfold N; lia).
    rewrite IH.
    + cbn. fold N. f_equal. f_equal.
      rewrite Z.add_mod_idemp_l by lia. f_equal. lia.
    + destruct Hok as (Ha & Hf & Hd).
      split; [cbn; apply Z.mod_pos_bound; exact HN|]. split; assumption.
    + exact Hr.
    + exact Ht.
    + exact Hall.
Qed.

(** X1. As many clicks on the time-format button as there are time formats
    bring the instance back to where it was, whatever the times of the
    clicks, when that button is not also the reset button. *)
Theorem time_format_round_trip self clicks :
  indices_ok self ->
  button_change_time_format self <> button_reset self ->
  Forall (fun c => button (snd c) = button_change_time_format self) clicks ->
  length clicks = length (format_time self) ->
  click_run self clicks = Ok self.
Proof.
  intros Hok Hr Hall Hlen. rewrite click_run_time_format by assumption.
  rewrite Hlen.
  assert (0 < Z.of_nat (length (format_time self))) by (destruct Hok as (_ & ? & _); lia).
  rewrite <- (Z.mul_1_l (Z.of_nat (length (format_time self)))) at 1.
  rewrite Z.mod_add by lia.
  rewrite Z.mod_small by (destruct Hok as (_ & ? & _); lia).
  now rewrite set_active_time_format_same.
Qed.

(** X2. As many clicks on the slot button as there are slots bring the
    instance back to where it was, the cycle deadline included, when that
    button is not also one of the other two. *)
Theorem slot_round_trip self clicks :
  indices_ok self ->
  button_change_format self <> button_reset self ->
  button_change_format self <> button_change_time_format self ->
  Forall (fun c => button (snd c) = button_change_format self) clicks ->
  length clicks = length (format self) ->
  click_run self clicks = Ok self.
Proof.
  intros Hok Hr Ht Hall Hlen. rewrite click_run_change_format by assumption.
  rewrite Hlen.
  assert (0 < Z.of_nat (length (format self))) by (destruct Hok as (? & _); lia).
  rewrite <- (Z.mul_1_l (Z.of_nat (length (format self)))) at 1.
  rewrite Z.mod_add by lia.
  rewrite Z.mod_small by (destruct Hok as (? & _); lia).
  now rewrite set_active_same.
Qed.

End ClickRuns.

Lemma time_format_round_trip_witness :
  click_run Sample.three_slots_instance
    [(1%Q, {| button := 2 |}); (7%Q, {| button := 2 |})]
  = Ok Sample.three_slots_instance.
Proof.
  apply time_format_round_trip.
  - unfold indices_ok. simpl. repeat split; lia.
  - discriminate.
  - repeat constructor.
  - reflexivity.
Defined.

Lemma slot_round_trip_witness :
  click_run Sample.three_slots_instance
    [(1%Q, {| button := 1 |}); (7%Q, {| button := 1 |}); (8%Q, {| button := 1 |})]
  = Ok Sample.three_slots_instance.
Proof.
  apply slot_round_trip.
  - unfold indices_ok. simpl. repeat split; lia.
  - discriminate.
  - discriminate.
  - repeat constructor.
  - reflexivity.
Defined.

(** ** What every reachable instance keeps *)

Section Reachable.
Context {Zone : Type} (get_localzone : option Zone).
Context (country_timezones : string -> option (list string)).
Context (timezone : string -> option Zone).
Context (zone_name : Zone -> string).
Context {DateTime : Type} (datetime_now : Zone -> Q -> DateTime).
Context (dt_hour dt_minute : DateTime -> Z).
Context (strftime : DateTime -> string -> string).
Context (safe_format : string -> gmap string (option string) -> string).
Implicit Types (self : Py3status Zone) (r : Readings) (now : Q).

Local Abbreviation init := (post_config_hook get_localzone country_timezones timezone).
Local Abbreviation poll :=
  (clock zone_name datetime_now dt_hour dt_minute strftime safe_format).
Local Abbreviation host_step :=
  (step zone_name datetime_now dt_hour dt_minute strftime safe_format).

(** X3. After an initialisation with a slot list and a list of time formats
    that are not empty, both active indices lie within their lists in every
    instance that clicks and polls can reach, so neither [format[active]] nor
    [format_time[active_time_format]] nor [time_deltas[active_time_format]]
    raises there. *)
Theorem reachable_indices_in_range c t0 self0 self :
  init c t0 = Ok self0 ->
  as_list (Config.format c) <> [] ->
  as_list (Config.format_time c) <> [] ->
  rtc host_step self0 self ->
  0 <= active self < Z.of_nat (length (as_list (Config.format c)))
  /\ 0 <= active_time_format self
     < Z.of_nat (length (as_list (Config.format_time c)))
  /\ (exists fmt, getitem (format self) (active self) = Ok fmt)
  /\ (exists fmt g,
        getitem (format_time self) (active_time_format self) = Ok fmt
        /\ getitem (time_deltas self) (active_time_format self) = Ok g
        /\ g = time_delta fmt).
Proof.
  intros Hinit Hf Ht Hsteps.
  pose proof (post_config_hook_indices_ok _ _ _ _ _ _ Hinit Hf Ht) as Hok0.
  pose proof (steps_indices_ok _ _ _ _ _ _ _ _ Hsteps Hok0) as (Ha & Hatf & Hd).
  pose proof (steps_same_config _ _ _ _ _ _ _ _ Hsteps) as Hsame.
  pose proof (post_config_hook_ok _ _ _ _ _ _ Hinit) as (Ef & Et & _).
  unfold same_config in Hsame. decompose [and] Hsame. clear Hsame.
  assert (Ef' : format self = as_list (Config.format c)) by congruence.
  assert (Et' : format_time self = as_list (Config.format_time c)) by congruence.
  rewrite <- Ef', <- Et'. split; [exact Ha|]. split; [exact Hatf|]. split.
  - destruct (getitem_in_range _ _ Ha) as (fmt & Hfmt & _). eauto.
  - destruct (getitem_in_range (time_deltas self) (active_time_format self))
      as (g & Hg & _); [rewrite Hd, length_map; exact Hatf|].
    pose proof Hg as Hg'. rewrite Hd in Hg'.
    apply getitem_map in Hg' as (fmt & Hfmt & ->). eauto.
Qed.

(** X4. Clicks and polls change nothing but the active slot, the active time
    format and the cycle deadline: in every instance they can reach, the
    glyphs, the period, the three buttons, the two lists, the zone table and
    the refresh intervals are those [post_config_hook] set, and [cycle] is 0
    for a single slot and the configured value otherwise. *)
Theorem reachable_configuration_frozen c t0 self0 self :
  init c t0 = Ok self0 ->
  rtc host_step self0 self ->
  blocks self = Config.blocks c
  /\ block_hours self = Config.block_hours c
  /\ button_change_format self = Config.button_change_format c
  /\ button_change_time_format self = Config.button_change_time_format c
  /\ button_reset self = Config.button_reset c
  /\ format self = as_list (Config.format c)
  /\ format_time self = as_list (Config.format_time c)
  /\ cycle self
     = (if (length (as_list (Config.format c)) =? 1)%nat then 0%Q
        else Config.cycle c)
  /\ _items self = _items self0
  /\ multiple_tz self = (1 <? size (_items self0))%nat
  /\ time_deltas self = map time_delta (as_list (Config.format_time c)).
Proof.
  intros Hinit Hsteps.
  pose proof (steps_same_config _ _ _ _ _ _ _ _ Hsteps) as Hsame.
  unfold same_config in Hsame. decompose [and] Hsame. clear Hsame.
  unfold post_config_hook in Hinit.
  apply rbind_ok in Hinit as (items & _ & Hinit). injection Hinit as <-.
  simpl in *. repeat split; assumption.
Qed.

End Reachable.

Lemma reachable_indices_in_range_witness :
  0 <= active (set_active Sample.three_slots_instance 1) < 3
  /\ exists fmt,
       getitem (format (set_active Sample.three_slots_instance 1)) 1 = Ok fmt.
Proof.
  destruct (reachable_indices_in_range Sample.get_localzone Sample.country_timezones
              Sample.timezone Sample.zone_name Sample.datetime_now Sample.hour
              Sample.minute Sample.strftime Sample.safe_format
              Sample.three_slots 0%Q Sample.three_slots_instance
              (set_active Sample.three_slots_instance 1))
    as (Ha & _ & Hf & _).
  - vm_compute. reflexivity.
  - discriminate.
  - discriminate.
  - apply rtc_once.
    apply step_click with (now := 5%Q) (event := {| button := 1 |}).
    reflexivity.
  - split; [exact Ha | exact Hf].
Defined.

Lemma reachable_configuration_frozen_witness :
  button_reset (set_active Sample.three_slots_instance 1) = 3
  /\ cycle (set_active Sample.three_slots_instance 1) = 10%Q.
Proof.
  pose proof (reachable_configuration_frozen Sample.get_localzone
                Sample.country_timezones Sample.timezone Sample.zone_name
                Sample.datetime_now Sample.hour Sample.minute Sample.strftime
                Sample.safe_format Sample.three_slots 0%Q
                Sample.three_slots_instance
                (set_active Sample.three_slots_instance 1)) as H.
  destruct H as (_ & _ & _ & _ & Hr & _ & _ & Hc & _).
  - vm_compute. reflexivity.
  - apply rtc_once.
    apply step_click with (now := 5%Q) (event := {| button := 1 |}).
    reflexivity.
  - split; [exact Hr | exact Hc].
Defined.

(** ** The zone table *)

Lemma map_size_two {A} (m : gmap string A) :
  (1 < size m)%nat <->
  exists k1 k2, k1 <> k2 /\ is_Some (m !! k1) /\ is_Some (m !! k2).
Proof.
  split.
  - intros Hsize. rewrite <- length_map_to_list in Hsize.
    pose proof (NoDup_fst_map_to_list m) as Hnd.
    destruct (map_to_list m) as [|[k1 v1] [|[k2 v2] l]] eqn:El;
      [simpl in Hsize; lia | simpl in Hsize; lia |].
    exists k1, k2. cbn in Hnd. apply NoDup_cons in Hnd as [Hnot _].
    split; [intros ->; apply Hnot; left|].
    split; [exists v1 | exists v2]; apply elem_of_map_to_list; rewrite El.
    + left.
    + right. left.
  - intros (k1 & k2 & Hne & H1 & H2).
    rewrite <- size_dom.
    apply elem_of_dom in H1, H2.
    assert (Hsub : ({[k1]} ∪ {[k2]} : gset string) ⊆ dom m)
      by (apply union_subseteq; split; now apply singleton_subseteq_l).
    apply subseteq_size in Hsub.
    rewrite size_union, !size_singleton in Hsub
      by (now apply disjoint_singleton_l, not_elem_of_singleton).
    lia.
Qed.

Section ZoneTable.
Context {Zone : Type} (get_localzone : option Zone).
Context (country_timezones : string -> option (list string)).
Context (timezone : string -> option Zone).
Implicit Types (self : Py3status Zone) (tz : string).

Local Abbreviation resolve := (_get_timezone get_localzone country_timezones timezone).
Local Abbreviation collect := (collect_items get_localzone country_timezones timezone).
Local Abbreviation init := (post_config_hook get_localzone country_timezones timezone).

(** X5. The zone table built by [post_config_hook] has exactly the tokens
    found between braces in the joined slots as its keys, each with what
    [_get_timezone] gives for it; and [multiple_tz] is set exactly when two
    different tokens were found. *)
Theorem items_are_the_tokens c t0 self :
  init c t0 = Ok self ->
  let tokens :=
    Scan.findall_placeholders (String.concat "" (as_list (Config.format c))) in
  (forall tz, is_Some (_items self !! tz) <-> tz ∈ tokens)
  /\ (forall tz z, _items self !! tz = Some z -> resolve tz = Ok z)
  /\ (multiple_tz self = true <->
      exists t1 t2, t1 ∈ tokens /\ t2 ∈ tokens /\ t1 <> t2).
Proof.
  intros Hinit tokens.
  unfold post_config_hook in Hinit.
  apply rbind_ok in Hinit as (items & Hc & Hinit). injection Hinit as <-.
  fold tokens in Hc. simpl.
  assert (Hkeys : forall tz, is_Some (items !! tz) <-> tz ∈ tokens).
  { intros tz. split.
    - intros [z Hz].
      destruct (collect_items_dom _ _ _ _ _ _ _ _ Hc Hz) as [H|H]; [exact H|].
      now rewrite lookup_empty in H.
    - intros Hin.
      destruct (collect_items_lookup _ _ _ _ _ _ _ Hc Hin) as (z & _ & Hz). eauto. }
  split; [exact Hkeys|]. split.
  - intros tz z Hz.
    assert (Hin : tz ∈ tokens) by (apply Hkeys; eauto).
    destruct (collect_items_lookup _ _ _ _ _ _ _ Hc Hin) as (z' & Hres & Hz').
    congruence.
  - rewrite Nat.ltb_lt, map_size_two. split.
    + intros (k1 & k2 & Hne & H1 & H2). exists k1, k2.
      split; [now apply Hkeys|]. split; [now apply Hkeys | exact Hne].
    + intros (k1 & k2 & H1 & H2 & Hne). exists k1, k2.
      split; [exact Hne|]. split; now apply Hkeys.
Qed.

(** X6. A two-letter token is resolved as the first zone of its country,
    whatever the other zones of the country are: it gives what that zone's own
    name gives as a token, and after initialisation the zone table holds the
    same entry under the code and under the name. *)
Theorem country_code_is_first_zone c t0 self code z zs :
  init c t0 = Ok self ->
  code ∈ Scan.findall_placeholders (String.concat "" (as_list (Config.format c))) ->
  z ∈ Scan.findall_placeholders (String.concat "" (as_list (Config.format c))) ->
  code <> "Local" -> String.length code = 2%nat ->
  country_timezones code = Some (z :: zs) ->
  z <> "Local" -> String.length z <> 2%nat ->
  resolve code = resolve z
  /\ resolve code = Ok (match timezone z with
                        | Some zone => TzZone zone
                        | None => TzUnknown
                        end)
  /\ is_Some (_items self !! code)
  /\ _items self !! code = _items self !! z.
Proof.
  intros Hinit Hcode Hz Hl Hlen Hc Hzl Hzlen.
  assert (Hres : resolve code = resolve z
                 /\ resolve code = Ok (match timezone z with
                                       | Some zone => TzZone zone
                                       | None => TzUnknown
                                       end)).
  { unfold _get_timezone.
    apply String.eqb_neq in Hl, Hzl. apply Nat.eqb_neq in Hzlen.
    rewrite Hl, Hzl, Hlen, Hzlen, Hc. simpl.
    change (getitem (z :: zs) 0) with (Ok (A:=string) z). simpl.
    destruct (timezone z); split; reflexivity. }
  destruct Hres as [Hsame Hval]. split; [exact Hsame|]. split; [exact Hval|].
  unfold post_config_hook in Hinit.
  apply rbind_ok in Hinit as (items & Hcol & Hinit). injection Hinit as <-.
  cbn [_items].
  destruct (collect_items_lookup _ _ _ _ _ _ _ Hcol Hcode) as (v1 & Hr1 & Hv1).
  destruct (collect_items_lookup _ _ _ _ _ _ _ Hcol Hz) as (v2 & Hr2 & Hv2).
  split; [eauto|]. rewrite Hv1, Hv2. f_equal. congruence.
Qed.

Lemma _get_timezone_raises tz e :
  resolve tz = Raise e <->
  e = IndexError /\ tz <> "Local" /\ String.length tz = 2%nat
  /\ country_timezones tz = Some [].
Proof.
  unfold _get_timezone.
  destruct (String.eqb_spec tz "Local") as [->|Hl].
  - split; [destruct get_localzone; discriminate|]. now intros (_ & H & _).
  - destruct (Nat.eqb_spec (String.length tz) 2) as [Hlen|Hlen].
    + destruct (country_timezones tz) as [[|z zs]|] eqn:Hc.
      * rewrite getitem_nil. simpl. split; [intros [= <-]; auto|].
        now intros (-> & _).
      * change (getitem (z :: zs) 0) with (Ok (A:=string) z). simpl.
        split; [destruct (timezone z); discriminate|].
        intros (_ & _ & _ & H). discriminate.
      * split; [discriminate|]. intros (_ & _ & _ & H). discriminate.
    + split; [destruct (timezone tz); discriminate|]. now intros (_ & _ & H & _).
Qed.

Lemma collect_items_raises ms items e :
  collect ms items = Raise e <-> exists tz, tz ∈ ms /\ resolve tz = Raise e.
Proof.
  revert items. induction ms as [|m ms IH]; intros items; simpl.
  - split; [discriminate|]. intros (tz & Hin & _). now apply elem_of_nil in Hin.
  - destruct (resolve m) as [z|e'] eqn:Hm; simpl.
    + rewrite IH. split.
      * intros (tz & Hin & H). exists tz. split; [now right | exact H].
      * intros (tz & Hin & H). apply elem_of_cons in Hin as [->|Hin];
          [congruence|]. eauto.
    + split.
      * intros [= <-]. exists m. split; [left | exact Hm].
      * intros (tz & _ & H). apply _get_timezone_raises in H as (-> & _).
        apply _get_timezone_raises in Hm as (-> & _). reflexivity.
Qed.

(** X7. Initialisation raises exactly when a token found in the slots is a
    two-letter code whose country has an empty list of zones, and what it
    raises is the [IndexError] of [zones[0]]; no unknown zone, unknown code or
    undeterminable local zone makes it raise. *)
Theorem init_raises_on_empty_country_only c t0 (e : exn) :
  init c t0 = Raise e <->
  e = IndexError
  /\ exists tz,
       tz ∈ Scan.findall_placeholders (String.concat "" (as_list (Config.format c)))
       /\ tz <> "Local" /\ String.length tz = 2%nat
       /\ country_timezones tz = Some [].
Proof.
  unfold post_config_hook.
  set (tokens := Scan.findall_placeholders _).
  destruct (collect tokens ∅) as [items|e'] eqn:Hc; simpl.
  - split; [discriminate|].
    intros (-> & tz & Hin & Hl & Hlen & Hcountry).
    assert (Hr : collect tokens ∅ = Raise IndexError).
    { apply collect_items_raises. exists tz. split; [exact Hin|].
      apply _get_timezone_raises. auto. }
    congruence.
  - apply collect_items_raises in Hc as (tz & Hin & Hr).
    apply _get_timezone_raises in Hr as (-> & Hl & Hlen & Hcountry).
    split; [intros [= <-]; eauto 10|]. now intros (-> & _).
Qed.

End ZoneTable.

Lemma items_are_the_tokens_witness :
  (is_Some (_items Sample.three_slots_instance !! "xx")
   <-> "xx" ∈ Scan.findall_placeholders "{Europe/London}{Asia/Tokyo}{xx}")
  /\ (multiple_tz Sample.three_slots_instance = true <->
      exists t1 t2 : string,
        t1 ∈ Scan.findall_placeholders "{Europe/London}{Asia/Tokyo}{xx}"
        /\ t2 ∈ Scan.findall_placeholders "{Europe/London}{Asia/Tokyo}{xx}"
        /\ t1 <> t2).
Proof.
  destruct (items_are_the_tokens Sample.get_localzone Sample.country_timezones
              Sample.timezone Sample.three_slots 0%Q Sample.three_slots_instance)
    as (Hkeys & _ & Hmulti).
  - vm_compute. reflexivity.
  - split; [apply Hkeys | exact Hmulti].
Defined.

Lemma country_code_is_first_zone_witness :
  exists self,
    Sample.post_config_hook Sample.berlin_twice 0%Q = Ok self
    /\ _items self !! "de" = _items self !! "Europe/Berlin".
Proof.
  eexists. split; [vm_compute; reflexivity|].
  apply (country_code_is_first_zone Sample.get_localzone Sample.country_timezones
           Sample.timezone Sample.berlin_twice 0%Q _ "de" "Europe/Berlin"
           ["Europe/Busingen"]).
  - vm_compute. reflexivity.
  - vm_compute. left.
  - vm_compute. right. left.
  - discriminate.
  - reflexivity.
  - reflexivity.
  - discriminate.
  - discriminate.
Defined.

Lemma init_raises_on_empty_country_only_witness :
  post_config_hook Sample.get_localzone Sample.country_timezones_with_gap
    Sample.timezone Sample.gap_slots 0%Q = Raise IndexError.
Proof.
  apply init_raises_on_empty_country_only. split; [reflexivity|].
  exists "zz". split.
  - vm_compute. right. left.
  - split; [discriminate|]. split; reflexivity.
Defined.

(** ** When a click raises *)

Section ClickErrors.
Context {Zone : Type}.
Implicit Types (self : Py3status Zone) (event : Event) (now : Q).

(** X8. A click raises exactly when the slot list is empty and the click is
    taken as a change of slot, and it then raises the [ZeroDivisionError] of
    the modulo; a reset or a change of time format never raises, not even on
    empty lists. *)
Theorem on_click_raises_iff self now event (e : exn) :
  on_click self now event = Raise e <->
  e = ZeroDivisionError /\ format self = []
  /\ button event <> button_reset self
  /\ button event <> button_change_time_format self
  /\ button event = button_change_format self.
Proof.
  unfold on_click.
  destruct (Z.eqb_spec (button event) (button_reset self)) as [Hr|Hr].
  { split; [discriminate|]. now intros (_ & _ & H & _). }
  destruct (Z.eqb_spec (button event) (button_change_time_format self)) as [Ht|Ht].
  { split; [discriminate|]. now intros (_ & _ & _ & H & _). }
  destruct (Z.eqb_spec (button event) (button_change_format self)) as [Hf|Hf].
  - unfold _change_active.
    destruct (Z.eqb_spec (Z.of_nat (length (format self))) 0) as [E|E].
    + split; [intros [= <-]|reflexivity || (intros (-> & _); reflexivity)].
      repeat split; try assumption.
      destruct (format self); [reflexivity | discriminate].
    + split; [discriminate|]. intros (_ & Hnil & _). now rewrite Hnil in E.
  - split; [discriminate|]. now intros (_ & _ & _ & _ & H).
Qed.

End ClickErrors.

Example no_slots_init :
  Sample.post_config_hook Sample.no_slots 0%Q = Ok Sample.no_slots_instance.
Proof. vm_compute. reflexivity. Qed.

Lemma on_click_raises_iff_witness :
  on_click Sample.no_slots_instance 1%Q {| button := 1 |} = Raise ZeroDivisionError
  /\ is_ok (on_click Sample.no_slots_instance 1%Q {| button := 3 |}) = true.
Proof.
  split.
  - apply on_click_raises_iff. repeat split; discriminate.
  - destruct (on_click Sample.no_slots_instance 1%Q {| button := 3 |}) as [s|e] eqn:E;
      [reflexivity|].
    apply on_click_raises_iff in E as (_ & _ & H & _). now elim H.
Defined.

(** ** Deadlines *)

Section Deadlines.
Context {Zone : Type} (zone_name : Zone -> string).
Context {DateTime : Type} (datetime_now : Zone -> Q -> DateTime).
Context (dt_hour dt_minute : DateTime -> Z).
Context (strftime : DateTime -> string -> string).
Context (safe_format : string -> gmap string (option string) -> string).
Implicit Types (self : Py3status Zone) (r : Readings) (now : Q).

Local Abbreviation icons_ok := (icons_ok datetime_now dt_hour dt_minute).
Local Abbreviation poll :=
  (clock zone_name datetime_now dt_hour dt_minute strftime safe_format).
Local Abbreviation polls :=
  (poll_run zone_name datetime_now dt_hour dt_minute strftime safe_format).






(** X11. After a click on the reset button at time [t], a poll that reads
    the clock before [t + cycle] does not fire the timer: the first slot
    stays active and the deadline stays [t + cycle]. *)
Theorem reset_holds_until_deadline self t event r :
  button event = button_reset self ->
  (at_cycle_test r < t + cycle self)%Q ->
  exists s,
    on_click self t event = Ok s
    /\ forall s' out,
         poll s r = Ok (s', out) ->
         s' = s /\ active s' = 0 /\ _cycle_time s' = (t + cycle self)%Q.
Proof.
  intros Hb Hlt. unfold on_click. rewrite Hb, Z.eqb_refl.
  eexists. split; [reflexivity|]. intros s' out Hp.
  apply clock_inv in Hp as (? & ? & ? & Hac & _).
  apply auto_cycle_ok in Hac as (_ & _ & Hac). cbn in Hac.
  destruct (Qle_bool (t + cycle self) (at_cycle_test r)) eqn:E.
  - apply Qle_bool_iff in E. lra.
  - rewrite andb_false_r in Hac. subst s'. repeat split.
Qed.


End Deadlines.

Section NeverAhead.
Context {Zone : Type} (zone_name : Zone -> string).
Context {DateTime : Type} (datetime_now : Zone -> Q -> DateTime).
Context (dt_hour dt_minute : DateTime -> Z).
Context (strftime : DateTime -> string -> string).
Context (safe_format : string -> gmap string (option string) -> string).
Implicit Types (self : Py3status Zone) (r : Readings) (now : Q).

Local Abbreviation icons_ok := (icons_ok datetime_now dt_hour dt_minute).
Local Abbreviation poll :=
  (clock zone_name datetime_now dt_hour dt_minute strftime safe_format).
Local Abbreviation polls :=
  (poll_run zone_name datetime_now dt_hour dt_minute strftime safe_format).



End NeverAhead.



Lemma reset_holds_until_deadline_witness :
  exists s,
    on_click (set_active Sample.three_slots_instance 2) 5%Q {| button := 3 |} = Ok s
    /\ forall s' out,
         Sample.clock s (instant 9%Q) = Ok (s', out) ->
         s' = s /\ active s' = 0 /\ _cycle_time s' = (5 + 10)%Q.
Proof.
  apply (reset_holds_until_deadline Sample.zone_name Sample.datetime_now
           Sample.hour Sample.minute Sample.strftime Sample.safe_format
           (set_active Sample.three_slots_instance 2) 5%Q {| button := 3 |}
           (instant 9%Q)).
  - reflexivity.
  - reflexivity.
Defined.


(** ** The icon through the day *)

(** X13. With the default period of 12 hours and the default 24 glyphs the
    icon repeats with the period: twelve hours later the same glyph index is
    computed, at every time of the first half of the day. *)
Theorem icon_index_periodic (hour minute : Z) :
  0 <= hour < 12 -> 0 <= minute < 60 ->
  icon_index (hour + 12) minute 12 24 = icon_index hour minute 12 24.
Proof.
  intros Hh Hm. rewrite !default_icon_index by lia.
  unfold icon_index_minutes. do 3 f_equal.
  replace (60 * (hour + 12) + minute)
    with (60 * hour + minute + 1 * (60 * 12)) by lia.
  apply Z.mod_add. lia.
Qed.

Lemma icon_index_periodic_witness :
  icon_index (11 + 12) 30 12 24 = icon_index 11 30 12 24.
Proof. apply icon_index_periodic; lia. Defined.

(** X14. With the default period of 12 hours and the default 24 glyphs, the
    rounding of the floats never shows: at every time of day the glyph index
    is what the formula of the specification gives in exact arithmetic, the
    number of whole half hours gone by in the period, so that glyph [i] shows
    from minute [30 i] up to minute [30 (i + 1)]. *)
Theorem icon_index_even_steps (hour minute : Z) :
  0 <= hour < 24 -> 0 <= minute < 60 ->
  icon_index hour minute 12 24 = Ok (((60 * hour + minute) mod (60 * 12)) / 30)
  /\ icon_index hour minute 12 24 = icon_index_spec hour minute 12 24.
Proof.
  intros Hh Hm. rewrite default_icon_index by assumption.
  rewrite icon_index_spec_minutes by discriminate. split; [|reflexivity].
  unfold icon_index_minutes. f_equal.
  change (Z.of_nat 24) with 24. change (60 * 12) with (30 * 24).
  apply Z.div_mul_cancel_r; lia.
Qed.

Lemma icon_index_even_steps_witness :
  icon_index 7 45 12 24 = Ok (((60 * 7 + 45) mod (60 * 12)) / 30)
  /\ icon_index 7 45 12 24 = icon_index_spec 7 45 12 24.
Proof. apply icon_index_even_steps; lia. Defined.

(** ** The friendly name of a zone *)

Lemma contains_here (needle hay : string) :
  String.prefix needle hay = true -> Scan.contains needle hay = true.
Proof. intros H. destruct hay; cbn [Scan.contains]; now rewrite H. Qed.

Lemma contains_later (needle : string) (c : ascii) (hay : string) :
  Scan.contains needle hay = true -> Scan.contains needle (String c hay) = true.
Proof. intros H. cbn [Scan.contains]. rewrite H. apply orb_true_r. Qed.

Lemma contains_app_r (needle pre hay : string) :
  Scan.contains needle hay = true -> Scan.contains needle (pre ++ hay) = true.
Proof.
  intros H. induction pre as [|c pre IH]; [exact H|].
  rewrite string_app_cons. now apply contains_later.
Qed.

Lemma after_last_slash_none (s : string) :
  Scan.contains "/" s = false -> after_last_slash s = s.
Proof. intros H. destruct s; [reflexivity|]. cbn [after_last_slash]. now rewrite H. Qed.

(** X15. The friendly name of a zone is the part of its name after the last
    slash (the whole name when it has none) with every underscore turned into
    a space: it has no slash and no underscore, and as many characters as that
    part. *)
Theorem friendly_name_last_segment (pre last : string) :
  Scan.contains "/" last = false ->
  let tzname s := underscores_to_spaces (after_last_slash s) in
  tzname (pre ++ String "/" last) = underscores_to_spaces last
  /\ tzname last = underscores_to_spaces last
  /\ Scan.contains "_" (underscores_to_spaces last) = false
  /\ Scan.contains "/" (underscores_to_spaces last) = false
  /\ String.length (underscores_to_spaces last) = String.length last.
Proof.
  intros Hlast tzname. unfold tzname.
  split; [|split; [now rewrite after_last_slash_none|]].
  - f_equal. induction pre as [|c pre IH].
    + change (EmptyString ++ String "/" last) with (String "/" last).
      cbn [after_last_slash].
      rewrite contains_char_cons. cbn [Ascii.eqb Bool.eqb orb andb].
      now apply after_last_slash_none.
    + rewrite string_app_cons. cbn [after_last_slash].
      rewrite contains_later; [exact IH|].
      apply contains_app_r. rewrite contains_char_cons. reflexivity.
  - clear pre tzname. induction last as [|c last IH]; [repeat split|].
    rewrite contains_char_cons in Hlast. apply orb_false_iff in Hlast as [Hc Hl].
    destruct (IH Hl) as (H1 & H2 & H3). cbn [underscores_to_spaces].
    rewrite !contains_char_cons, H1, H2. cbn [String.length]. rewrite H3.
    destruct (Ascii.eqb_spec c "_") as [->|Hne].
    + repeat split.
    + repeat split; rewrite ?orb_false_r.
      * apply Ascii.eqb_neq. congruence.
      * exact Hc.
Qed.

Lemma friendly_name_last_segment_witness :
  underscores_to_spaces (after_last_slash "America/Argentina/Buenos_Aires")
  = underscores_to_spaces "Buenos_Aires"
  /\ underscores_to_spaces "Buenos_Aires" = "Buenos Aires".
Proof.
  split; [|reflexivity].
  apply (friendly_name_last_segment "America/Argentina" "Buenos_Aires").
  reflexivity.
Defined.

(** ** More on scanning *)

Lemma contains_char_app (c : ascii) (a b : string) :
  Scan.contains (String c EmptyString) (a ++ b)
  = Scan.contains (String c EmptyString) a || Scan.contains (String c EmptyString) b.
Proof.
  induction a as [|d a IH]; [reflexivity|].
  rewrite string_app_cons, !contains_char_cons, IH. apply orb_assoc.
Qed.

Lemma scan_stable (s : string) :
  Scan.scan None (fst (Scan.scan None s)) = (fst (Scan.scan None s), [])
  /\ forall buf,
       Scan.contains "}" buf = false ->
       Scan.scan None (fst (Scan.scan (Some buf) s))
       = (fst (Scan.scan (Some buf) s), []).
Proof.
  induction s as [|c s [IH1 IH2]].
  - split; [reflexivity|]. intros buf Hbuf. cbn [Scan.scan fst].
    rewrite (scan_unclosed EmptyString buf Hbuf). reflexivity.
  - split.
    + cbn [Scan.scan]. destruct (Ascii.eqb c "{") eqn:Hc.
      * apply IH2. reflexivity.
      * destruct (Scan.scan None s) as [out toks] eqn:E. cbn [fst] in *.
        cbn [Scan.scan]. rewrite Hc, IH1. reflexivity.
    + intros buf Hbuf. cbn [Scan.scan]. destruct (Ascii.eqb c "}") eqn:Hc.
      * destruct (Scan.scan None s) as [out toks] eqn:E. cbn [fst] in *. exact IH1.
      * apply IH2. rewrite contains_char_app, Hbuf, contains_char_cons.
        rewrite Ascii.eqb_sym, Hc. reflexivity.
Qed.

(** X16. Stripping the placeholders leaves a text with no placeholder in it:
    stripping it again changes nothing and finds no token. *)
Theorem sub_placeholders_idempotent (s : string) :
  Scan.sub_placeholders (Scan.sub_placeholders s) = Scan.sub_placeholders s
  /\ Scan.findall_placeholders (Scan.sub_placeholders s) = [].
Proof.
  unfold Scan.sub_placeholders, Scan.findall_placeholders.
  destruct (scan_stable s) as [H _]. now rewrite H.
Qed.

Lemma scan_plain_prefix (pre s : string) :
  Scan.contains "{" pre = false ->
  Scan.scan None (pre ++ s)
  = (pre ++ fst (Scan.scan None s), snd (Scan.scan None s)).
Proof.
  intros Hpre. induction pre as [|d pre IH].
  - change (EmptyString ++ ?x) with x. now destruct (Scan.scan None s).
  - rewrite contains_char_cons in Hpre. apply orb_false_iff in Hpre as [Hd Hp].
    rewrite !string_app_cons. cbn [Scan.scan].
    rewrite Ascii.eqb_sym, Hd, IH by assumption. reflexivity.
Qed.

(** X17. What stands between the braces of a placeholder has no part in the
    refresh interval: the interval of a format is that of the format with the
    placeholder taken out, so a directive written inside braces is not
    counted. *)
Theorem time_delta_ignores_placeholder (pre tok post : string) :
  Scan.contains "{" pre = false ->
  Scan.contains "}" tok = false ->
  time_delta (pre ++ String "{" (tok ++ String "}" post)) = time_delta (pre ++ post).
Proof.
  intros Hpre Htok. unfold time_delta, Scan.sub_placeholders.
  rewrite scan_span, scan_plain_prefix by assumption. reflexivity.
Qed.

Lemma time_delta_ignores_placeholder_witness :
  time_delta "%H:%M {%S.%f} %p" = time_delta "%H:%M  %p".
Proof.
  apply (time_delta_ignores_placeholder "%H:%M " "%S.%f" " %p"); reflexivity.
Defined.

Lemma prefix_pp (c d : ascii) (t : string) :
  String.prefix "%%" (String c (String d t)) = Ascii.eqb c "%" && Ascii.eqb d "%".
Proof.
  cbn [String.prefix].
  destruct (ascii_dec "%" c) as [<-|Hc].
  - destruct (ascii_dec "%" d) as [<-|Hd]; [now destruct t|].
    symmetry. apply Ascii.eqb_neq. congruence.
  - symmetry. apply andb_false_iff. left. apply Ascii.eqb_neq. congruence.
Qed.

Lemma contains_pp_cons (c : ascii) (s : string) :
  Scan.contains "%%" (String c s)
  = match s with
    | String d _ => Ascii.eqb c "%" && Ascii.eqb d "%"
    | EmptyString => false
    end || Scan.contains "%%" s.
Proof.
  cbn [Scan.contains]. f_equal. destruct s as [|d t]; [|apply prefix_pp].
  cbn [String.prefix]. now destruct (ascii_dec "%" c).
Qed.

Lemma remove_percent_percent_bounded (n : nat) (s : string) :
  (String.length s <= n)%nat ->
  Scan.contains "%%" (Scan.remove_percent_percent s) = false.
Proof.
  revert s. induction n as [|n IH]; intros s Hlen.
  - destruct s; [reflexivity | simpl in Hlen; lia].
  - destruct s as [|c s]; [reflexivity|]. cbn [String.length] in Hlen.
    rewrite remove_percent_percent_cons.
    destruct (Ascii.eqb c "%") eqn:Hc.
    + destruct s as [|d rest]; [apply Ascii.eqb_eq in Hc; now subst c|].
      cbn [String.length] in Hlen.
      destruct (Ascii.eqb d "%") eqn:Hd; [apply IH; lia|].
      rewrite contains_pp_cons, (IH (String d rest)) by (cbn [String.length]; lia).
      rewrite remove_percent_percent_cons, Hd, Hd. now rewrite andb_false_r.
    + rewrite contains_pp_cons, (IH s) by lia. rewrite Hc.
      now destruct (Scan.remove_percent_percent s).
Qed.

(** X18. Once the doubled percent signs are removed none is left, not even
    one made of the two signs on either side of a removed pair. *)
Theorem remove_percent_percent_complete (s : string) :
  Scan.contains "%%" (Scan.remove_percent_percent s) = false.
Proof. apply (remove_percent_percent_bounded (String.length s)). lia. Qed.

Lemma prefix_app (a b : string) : String.prefix a (a ++ b) = true.
Proof.
  induction a as [|c a IH]; [now destruct b|].
  rewrite string_app_cons. cbn [String.prefix].
  destruct (ascii_dec c c) as [_|Hne]; [exact IH | now elim Hne].
Qed.

Lemma scan_tokens (s : string) :
  (forall tok,
     tok ∈ snd (Scan.scan None s) ->
     Scan.contains "}" tok = false
     /\ Scan.contains (String "{" (tok ++ "}")) s = true)
  /\ (forall buf tok,
        Scan.contains "}" buf = false ->
        tok ∈ snd (Scan.scan (Some buf) s) ->
        (exists pre post,
           s = pre ++ String "}" post /\ tok = buf ++ pre
           /\ Scan.contains "}" pre = false)
        \/ (Scan.contains "}" tok = false
            /\ Scan.contains (String "{" (tok ++ "}")) s = true)).
Proof.
  induction s as [|c s [IH1 IH2]].
  - split; [intros tok H | intros buf tok _ H]; now apply elem_of_nil in H.
  - split.
    + intros tok. cbn [Scan.scan]. destruct (Ascii.eqb c "{") eqn:Hc.
      * intros H. apply Ascii.eqb_eq in Hc. subst c.
        destruct (IH2 EmptyString tok eq_refl H)
          as [(pre & post & -> & -> & Hpre)|[Hno Hin]].
        -- change (EmptyString ++ pre) with pre. split; [exact Hpre|].
           apply contains_here.
           change (String "{" (pre ++ String "}" post))
             with (String "{" pre ++ String "}" post).
           replace (String "{" pre ++ String "}" post)
             with (String "{" (pre ++ "}") ++ post)
             by (rewrite !string_app_cons, string_app_assoc; reflexivity).
           apply prefix_app.
        -- split; [exact Hno | now apply contains_later].
      * destruct (Scan.scan None s) as [out toks] eqn:E. cbn [snd] in *.
        intros H. destruct (IH1 tok H) as [Hno Hin].
        split; [exact Hno | now apply contains_later].
    + intros buf tok Hbuf. cbn [Scan.scan]. destruct (Ascii.eqb c "}") eqn:Hc.
      * destruct (Scan.scan None s) as [out toks] eqn:E. cbn [snd] in *.
        apply Ascii.eqb_eq in Hc. subst c.
        intros H. apply elem_of_cons in H as [->|H].
        -- left. exists EmptyString, s. repeat split.
           now rewrite string_app_nil_r.
        -- right. destruct (IH1 tok H) as [Hno Hin].
           split; [exact Hno | now apply contains_later].
      * intros H.
        assert (Hbuf' : Scan.contains "}" (buf ++ String c EmptyString) = false).
        { rewrite contains_char_app, Hbuf, contains_char_cons.
          rewrite Ascii.eqb_sym, Hc. reflexivity. }
        destruct (IH2 _ tok Hbuf' H) as [(pre & post & -> & -> & Hpre)|[Hno Hin]].
        -- left. exists (String c pre), post. repeat split.
           ++ now rewrite string_app_assoc.
           ++ rewrite contains_char_cons, Hpre. rewrite Ascii.eqb_sym, Hc. reflexivity.
        -- right. split; [exact Hno | now apply contains_later].
Qed.

Lemma findall_placeholders_sound (s tok : string) :
  tok ∈ Scan.findall_placeholders s ->
  Scan.contains "}" tok = false
  /\ Scan.contains (String "{" (tok ++ "}")) s = true.
Proof. apply (proj1 (scan_tokens s)). Qed.

Section TableKeys.
Context {Zone : Type} (get_localzone : option Zone).
Context (country_timezones : string -> option (list string)).
Context (timezone : string -> option Zone).

Local Abbreviation init := (post_config_hook get_localzone country_timezones timezone).

(** X19. Every key of the zone table stands between an opening and a closing
    brace in the joined slots, and has no closing brace in it (it may have an
    opening one): nothing is resolved that the slots do not name. *)
Theorem zone_table_keys_in_braces c t0 (self : Py3status Zone) (tok : string) :
  init c t0 = Ok self ->
  is_Some (_items self !! tok) ->
  Scan.contains "}" tok = false
  /\ Scan.contains (String "{" (tok ++ "}"))
       (String.concat "" (as_list (Config.format c))) = true.
Proof.
  intros Hinit [z Hz]. unfold post_config_hook in Hinit.
  apply rbind_ok in Hinit as (items & Hcol & Hinit). injection Hinit as <-.
  cbn [_items] in Hz.
  destruct (collect_items_dom _ _ _ _ _ _ _ _ Hcol Hz) as [Hin|Hin].
  - now apply findall_placeholders_sound.
  - now rewrite lookup_empty in Hin.
Qed.

End TableKeys.

Lemma zone_table_keys_in_braces_witness :
  Scan.contains "}" "Asia/Tokyo" = false
  /\ Scan.contains (String "{" ("Asia/Tokyo" ++ "}"))
       (String.concat "" (as_list (Config.format Sample.three_slots))) = true.
Proof.
  apply (zone_table_keys_in_braces Sample.get_localzone Sample.country_timezones
           Sample.timezone Sample.three_slots 0%Q Sample.three_slots_instance).
  - vm_compute. reflexivity.
  - vm_compute. eauto.
Defined.

(** ** When a poll raises *)

Lemma rmapM_raises {A B} (f : A -> result B) (l : list A) (e : exn) :
  Forall (fun x => (exists y, f x = Ok y) \/ f x = Raise e) l ->
  Exists (fun x => f x = Raise e) l ->
  rmapM f l = Raise e.
Proof.
  induction 1 as [|x l Hx _ IH]; intros Hex; [now apply Exists_nil in Hex|].
  simpl. destruct Hx as [[y Hy]|Hx]; [|now rewrite Hx].
  rewrite Hy. simpl. apply Exists_cons in Hex as [Hex|Hex]; [congruence|].
  now rewrite (IH Hex).
Qed.

Section PollErrors.
Context {Zone : Type} (zone_name : Zone -> string).
Context {DateTime : Type} (datetime_now : Zone -> Q -> DateTime).
Context (dt_hour dt_minute : DateTime -> Z).
Context (strftime : DateTime -> string -> string).
Context (safe_format : string -> gmap string (option string) -> string).
Implicit Types (self : Py3status Zone) (r : Readings) (now : Q).

Local Abbreviation render :=
  (render_item zone_name datetime_now dt_hour dt_minute strftime safe_format).
Local Abbreviation render_all :=
  (render_items zone_name datetime_now dt_hour dt_minute strftime safe_format).
Local Abbreviation poll :=
  (clock zone_name datetime_now dt_hour dt_minute strftime safe_format).

Lemma render_items_raises self r (e : exn) :
  (forall name zone,
     _items self !! name = Some zone ->
     (exists s, render self (at_item r name) zone = Ok s)
     \/ render self (at_item r name) zone = Raise e) ->
  (exists name zone,
     _items self !! name = Some zone
     /\ render self (at_item r name) zone = Raise e) ->
  render_all self r = Raise e.
Proof.
  intros Hall (name & zone & Hz & Hr). unfold render_items.
  rewrite (rmapM_raises _ _ e); [reflexivity| |].
  - apply Forall_forall. intros [n z] Hin. apply elem_of_map_to_list in Hin.
    destruct (Hall n z Hin) as [[s Hs]|Hs]; rewrite Hs; simpl; eauto.
  - apply Exists_exists. exists (name, zone). split.
    + now apply elem_of_map_to_list.
    + now rewrite Hr.
Qed.

Lemma render_items_returns_if self r :
  (forall name zone,
     _items self !! name = Some zone ->
     exists s, render self (at_item r name) zone = Ok s) ->
  exists times, render_all self r = Ok times.
Proof.
  intros Hall. unfold render_items.
  destruct (rmapM_returns
              (fun '(name, zone) =>
                 do s <- render self (at_item r name) zone; Ok (name, s))
              (map_to_list (_items self))) as [l Hl].
  - apply Forall_forall. intros [n z] Hin. apply elem_of_map_to_list in Hin.
    destruct (Hall n z Hin) as [s Hs]. rewrite Hs. simpl. eauto.
  - rewrite Hl. simpl. eauto.
Qed.

(** X20. With the icon in the active time format, a zone of the table
    resolved and [datetime.now] giving a time of day, a poll raises
    [ZeroDivisionError] when the period is 0 hours.  With no glyph it never
    returns, and it raises [IndexError] whenever the index itself can be
    computed at every time of day, as it can for the default period. *)
Theorem clock_raises_without_icon_data self r name zone fmt :
  indices_ok self ->
  getitem (format_time self) (active_time_format self) = Ok fmt ->
  Scan.contains "{icon}" fmt = true ->
  _items self !! name = Some (TzZone zone) ->
  (block_hours self = 0 ->
   (forall z now,
      let t := datetime_now z now in
      0 <= dt_hour t < 24 /\ 0 <= dt_minute t < 60) ->
   poll self r = Raise ZeroDivisionError)
  /\ (blocks self = [] -> is_ok (poll self r) = false)
  /\ (blocks self = [] ->
      (forall z now,
         let t := datetime_now z now in
         is_ok (icon_index (dt_hour t) (dt_minute t) (block_hours self) 0) = true) ->
      poll self r = Raise IndexError).
Proof.
  intros Hi Hfmt Hicon Hz.
  assert (Hne : format self <> []).
  { destruct Hi as (Ha & _). intros E. rewrite E in Ha. simpl in Ha. lia. }
  destruct (auto_cycle_returns self r Hne) as [s Hs].
  pose proof (auto_cycle_ok _ _ _ Hs) as (Hsame & Hatf & _).
  unfold same_config in Hsame. decompose [and] Hsame. clear Hsame.
  assert (Hfmt' : getitem (format_time s) (active_time_format s) = Ok fmt)
    by congruence.
  assert (Hz' : _items s !! name = Some (TzZone zone)) by congruence.
  assert (Hrender : forall (e : exn),
             (forall now z,
                render s now (TzZone z) = Raise e) ->
             poll self r = Raise e).
  { intros e He. unfold clock. rewrite Hs. cbn [rbind].
    rewrite (render_items_raises s r e); [reflexivity| |].
    - intros n [z|] _; [right; apply He | left; simpl; eauto].
    - exists name, (TzZone zone). split; [exact Hz' | apply He]. }
  split; [|split].
  - intros Hb Hday. apply Hrender. intros now z.
    rewrite (render_item_icon _ _ _ _ _ _ _ _ _ fmt Hfmt' Hicon).
    destruct (Hday z now) as [Hh Hm].
    replace (block_hours s) with 0 by congruence.
    now rewrite icon_index_zero_period.
  - intros Hnil. destruct (poll self r) as [[s' out]|e] eqn:Hp; [|reflexivity].
    exfalso.
    pose proof (clock_inv _ _ _ _ _ _ _ _ _ _ Hp)
      as (times & g & fmt0 & Hc & Hr & _).
    assert (s' = s) as -> by congruence.
    destruct (render_items_lookup _ _ _ _ _ _ _ _ _ _ _ Hr Hz') as (s0 & Hs0 & _).
    rewrite (render_item_icon _ _ _ _ _ _ _ _ _ fmt Hfmt' Hicon) in Hs0.
    replace (blocks s) with (@nil string) in Hs0 by congruence.
    destruct (icon_index _ _ _ _) as [idx|] in Hs0; [|discriminate].
    cbn [rbind] in Hs0. rewrite getitem_nil in Hs0. discriminate.
  - intros Hnil Hidx. apply Hrender. intros now z.
    rewrite (render_item_icon _ _ _ _ _ _ _ _ _ fmt Hfmt' Hicon).
    replace (blocks s) with (@nil string) by congruence.
    replace (block_hours s) with (block_hours self) by congruence.
    specialize (Hidx z now). cbn zeta in Hidx. cbn [length].
    destruct (icon_index _ _ _ _) as [idx|]; [|discriminate].
    cbn [rbind]. now rewrite getitem_nil.
Qed.

(** X21. The icon is not computed for an unresolved zone: when no zone of the
    table is resolved, a poll returns on every instance whose indices are in
    range, whatever the period and the glyphs are. *)
Theorem clock_returns_when_all_unknown self r :
  indices_ok self ->
  (forall name zone, _items self !! name = Some zone -> zone = TzUnknown) ->
  exists self' out, poll self r = Ok (self', out).
Proof.
  intros Hi Hall. unfold clock.
  assert (Hne : format self <> []).
  { destruct Hi as (Ha & _). intros E. rewrite E in Ha. simpl in Ha. lia. }
  destruct (auto_cycle_returns self r Hne) as [s Hs]. rewrite Hs. cbn [rbind].
  pose proof (auto_cycle_indices_ok _ _ _ Hi Hs) as (Ha & Ht & Hd).
  pose proof (auto_cycle_ok _ _ _ Hs) as (Hsame & _).
  assert (Hitems : _items s = _items self) by (unfold same_config in Hsame; tauto).
  destruct (render_items_returns_if s r) as [times ->].
  { intros n z Hz. rewrite Hitems in Hz. rewrite (Hall n z Hz). simpl. eauto. }
  cbn [rbind]. unfold granularity_timeout.
  destruct (getitem_in_range (time_deltas s) (active_time_format s)) as (g & -> & _).
  { rewrite Hd, length_map. exact Ht. }
  cbn [rbind].
  destruct (getitem_in_range (format s) (active s) Ha) as (fmt & -> & _).
  destruct (negb (g =? 0)); simpl; eauto.
Qed.

End PollErrors.

Lemma clock_raises_without_icon_data_witness :
  Sample.clock Sample.zero_period (instant 3%Q) = Raise ZeroDivisionError
  /\ Sample.clock Sample.no_glyphs (instant 3%Q) = Raise IndexError.
Proof.
  split.
  - apply (clock_raises_without_icon_data Sample.zone_name Sample.datetime_now
             Sample.hour Sample.minute Sample.strftime Sample.safe_format
             Sample.zero_period (instant 3%Q) "Asia/Tokyo" "Asia/Tokyo" "{icon}").
    + unfold indices_ok. simpl. repeat split; lia.
    + reflexivity.
    + reflexivity.
    + vm_compute. reflexivity.
    + reflexivity.
    + apply sample_time_of_day.
  - apply (clock_raises_without_icon_data Sample.zone_name Sample.datetime_now
             Sample.hour Sample.minute Sample.strftime Sample.safe_format
             Sample.no_glyphs (instant 3%Q) "Asia/Tokyo" "Asia/Tokyo" "{icon}").
    + unfold indices_ok. simpl. repeat split; lia.
    + reflexivity.
    + reflexivity.
    + vm_compute. reflexivity.
    + reflexivity.
    + intros z now t. destruct (sample_time_of_day z now) as [Hh Hm].
      apply (day_times_forallb (fun h m => is_ok (icon_index h m 12 0)));
        [vm_compute; reflexivity | exact Hh | exact Hm].
Defined.

Example zero_period_poll :
  Sample.clock Sample.zero_period (instant 3%Q) = Raise ZeroDivisionError.
Proof. vm_compute. reflexivity. Qed.

Lemma clock_returns_when_all_unknown_witness :
  exists self' out, Sample.clock Sample.only_unknown (instant 3%Q) = Ok (self', out).
Proof.
  apply (clock_returns_when_all_unknown Sample.zone_name Sample.datetime_now
           Sample.hour Sample.minute Sample.strftime Sample.safe_format
           Sample.only_unknown (instant 3%Q)).
  - unfold indices_ok. simpl. repeat split; lia.
  - intros name zone H. unfold Sample.only_unknown in H. cbn [_items] in H.
    apply lookup_insert_Some in H as [[_ <-]|[_ H]]; [reflexivity|].
    now rewrite lookup_empty in H.
Defined.

Example only_unknown_poll :
  (do p <- Sample.clock Sample.only_unknown (instant 3%Q); Ok (snd p))
  = Ok {| full_text := "? o'clock"; cached_until := (3 + 60 - 3)%Q |}.
Proof. vm_compute. reflexivity. Qed.
